(** * Internet-Speed-Test: a shallow embedding of the measurement logic

    The repository has three JavaScript programs:
    - the WebSocket server ([handleDownloadTest], [calculateJitter],
      [getServerLocation] and the [connection] / [message] listeners),
    - the "professional" browser client ([ProfessionalSpeedTest]),
    - the simple image-loading client ([SpeedTest]).

    JavaScript numbers are modelled by [JS.number]: a finite value is an
    exact rational, next to the three special values of IEEE arithmetic.
    Rounding of finite results and overflow to infinity are not part of
    the model; division by zero and the propagation of NaN are.  Clock
    readings ([Date.now()]) and byte counts are integers and the
    environment supplies every clock reading. *)

From Stdlib Require Import ZArith QArith Qround Qabs String Ascii List Lia Bool.
Import ListNotations.

Set Implicit Arguments.

Open Scope string_scope.
Open Scope list_scope.
Open Scope Z_scope.

(* ================================================================== *)
(** ** JavaScript numbers *)
(* ================================================================== *)

Module JS.

Inductive number : Type :=
| Fin (q : Q)
| PInf
| NInf
| NaN.

Definition of_Z (z : Z) : number := Fin (inject_Z z).

Definition is_zero (q : Q) : bool := Qeq_bool q 0.
Definition is_neg (q : Q) : bool := (Qnum q <? 0)%Z.

(** [a + b] *)
Definition add (a b : number) : number :=
  match a, b with
  | NaN, _ | _, NaN => NaN
  | Fin x, Fin y => Fin (Qred (x + y))
  | PInf, NInf | NInf, PInf => NaN
  | PInf, _ | _, PInf => PInf
  | NInf, _ | _, NInf => NInf
  end.

(** [a - b] *)
Definition sub (a b : number) : number :=
  match a, b with
  | NaN, _ | _, NaN => NaN
  | Fin x, Fin y => Fin (Qred (x - y))
  | PInf, PInf | NInf, NInf => NaN
  | PInf, _ | _, NInf => PInf
  | NInf, _ | _, PInf => NInf
  end.

(** [a * b] *)
Definition mul (a b : number) : number :=
  match a, b with
  | NaN, _ | _, NaN => NaN
  | Fin x, Fin y => Fin (Qred (x * y))
  | Fin x, PInf | PInf, Fin x =>
      if is_zero x then NaN else if is_neg x then NInf else PInf
  | Fin x, NInf | NInf, Fin x =>
      if is_zero x then NaN else if is_neg x then PInf else NInf
  | PInf, PInf | NInf, NInf => PInf
  | PInf, NInf | NInf, PInf => NaN
  end.

(** [a / b].  Every divisor the programs build is a clock difference or
    a count, so a zero divisor is the positive zero: a non-zero
    numerator over it is an infinity of the numerator's sign, and [0 / 0]
    is NaN. *)
Definition div (a b : number) : number :=
  match a, b with
  | NaN, _ | _, NaN => NaN
  | Fin x, Fin y =>
      if is_zero y
      then if is_zero x then NaN else if is_neg x then NInf else PInf
      else Fin (Qred (x / y))
  | Fin _, PInf | Fin _, NInf => Fin 0
  | PInf, Fin y => if is_neg y then NInf else PInf
  | NInf, Fin y => if is_neg y then PInf else NInf
  | PInf, PInf | PInf, NInf | NInf, PInf | NInf, NInf => NaN
  end.

(** [Math.abs] *)
Definition abs (a : number) : number :=
  match a with
  | Fin x => Fin (Qred (Qabs x))
  | PInf | NInf => PInf
  | NaN => NaN
  end.

(** [Math.round]: the nearest integer, a tie going up. *)
Definition round (a : number) : number :=
  match a with
  | Fin x => of_Z (Qfloor (x + (1 # 2)))
  | other => other
  end.

(** [Math.min] *)
Definition min (a b : number) : number :=
  match a, b with
  | NaN, _ | _, NaN => NaN
  | NInf, _ | _, NInf => NInf
  | PInf, x | x, PInf => x
  | Fin x, Fin y => if Qle_bool x y then Fin x else Fin y
  end.

(** [a === b] on numbers *)
Definition strict_eq (a b : number) : bool :=
  match a, b with
  | Fin x, Fin y => Qeq_bool x y
  | PInf, PInf | NInf, NInf => true
  | _, _ => false
  end.

(** The value of a finite number; the propositions below read
    "the result is the number [q]". *)
Definition is_value (a : number) (q : Q) : Prop :=
  match a with Fin x => x == q | _ => False end.

(** [xs.reduce((a, b) => a + b, 0)] *)
Definition sum (xs : list number) : number :=
  fold_left add xs (Fin 0).

End JS.

(* ================================================================== *)
(** ** JSON values and frames *)
(* ================================================================== *)

(** A parsed JSON text.  An object keeps its members in order; where a
    name occurs twice [JSON.parse] keeps the last value, so a parsed
    object is taken to carry each name once. *)
#[local] Set Warnings "-register-all".

Inductive json : Type :=
| JNull
| JBool (b : bool)
| JNum (q : Q)
| JStr (s : string)
| JArr (items : list json)
| JObj (members : list (string * json)).

Fixpoint assoc (k : string) (members : list (string * json)) : option json :=
  match members with
  | [] => None
  | (k', v) :: rest => if String.eqb k k' then Some v else assoc k rest
  end.

(** The outcome of evaluating an expression that may throw. *)
Inductive completion (A : Type) : Type :=
| Normal (a : A)
| Throws.
Arguments Throws {A}.

(** The promise an [async] method returns, as its caller finds it when
    the method first yields. *)
Inductive settlement : Type :=
| Pending
| Fulfilled
| Rejected (reason : string).

(** [data.name] for one of the member names the programs read ([type],
    [timestamp], [size], [chunkCount], [server], [message]): reading a
    member of [null] throws a TypeError, a missing member is
    [undefined] ([None]), and the wrappers of the other primitives and
    arrays have no such member. *)
Definition member (data : json) (name : string) : completion (option json) :=
  match data with
  | JNull => Throws
  | JObj members => Normal (assoc name members)
  | _ => Normal None
  end.

(** What [JSON.stringify] writes for a number: NaN and the infinities
    become [null]. *)
Definition num_json (x : JS.number) : json :=
  match x with
  | JS.Fin q => JNum q
  | _ => JNull
  end.

(** What [JSON.stringify] writes for an object literal whose member
    expressions may be [undefined]: those members are left out. *)
Fixpoint stringify_members (ms : list (string * option json))
  : list (string * json) :=
  match ms with
  | [] => []
  | (k, Some v) :: rest => (k, v) :: stringify_members rest
  | (_, None) :: rest => stringify_members rest
  end.

(** A WebSocket frame: the JSON value a text frame carries (or the fact
    that it does not parse), or a binary payload. *)
Inductive frame : Type :=
| Text (parsed : option json)
| Binary (payload : list Byte.byte).

(** A frame handed to [ws.send]: a serialised object, or one of the
    pre-generated random chunks, of which only the length matters. *)
Inductive sent : Type :=
| SendJSON (j : json)
| SendChunk (length : Z).

(* ================================================================== *)
(** ** The server *)
(* ================================================================== *)

Module Server.

Import JS.

(** *** Configuration *)

Definition CHUNK_SIZE : Z := 1024 * 1024.
Definition UPLOAD_TEST_DURATION : Z := 5000.
Definition PING_INTERVAL : Z := 1000.

(** [TEST_CHUNKS]: the pre-generated buffers, by name; a buffer is
    random, so the table records its length. *)
Definition TEST_CHUNKS : list (string * Z) :=
  [ ("1mb", 1024 * 1024);
    ("5mb", 5 * 1024 * 1024);
    ("10mb", 10 * 1024 * 1024);
    ("25mb", 25 * 1024 * 1024);
    ("50mb", 50 * 1024 * 1024);
    ("100mb", 100 * 1024 * 1024) ]%Z.

Fixpoint lookup_chunk (k : string) (table : list (string * Z)) : option Z :=
  match table with
  | [] => None
  | (k', len) :: rest => if String.eqb k k' then Some len else lookup_chunk k rest
  end.

(** *** Server location *)

Record location : Type := {
  name : string;
  lat : Q;
  lon : Q;
  region : string
}.

Definition locations : list location :=
  [ {| name := "New York"; lat := 40.7128; lon := -74.0060; region := "US East" |};
    {| name := "London"; lat := 51.5074; lon := -0.1278; region := "EU West" |};
    {| name := "Tokyo"; lat := 35.6762; lon := 139.6503; region := "Asia East" |};
    {| name := "Sydney"; lat := -33.8688; lon := 151.2093; region := "Oceania" |};
    {| name := "Frankfurt"; lat := 50.1109; lon := 8.6821; region := "EU Central" |};
    {| name := "Singapore"; lat := 1.3521; lon := 103.8198; region := "Asia Southeast" |};
    {| name := "São Paulo"; lat := -23.5505; lon := -46.6333; region := "South America" |};
    {| name := "Mumbai"; lat := 19.0760; lon := 72.8777; region := "Asia South" |} ].

(** [ip.split('.')]: the pieces between the dots, at least one. *)
Fixpoint split_dot (s : string) : list string :=
  match s with
  | EmptyString => [EmptyString]
  | String c rest =>
      if Ascii.eqb c "."
      then EmptyString :: split_dot rest
      else match split_dot rest with
           | piece :: pieces => String c piece :: pieces
           | [] => [String c EmptyString]
           end
  end.

(** White space [parseInt] skips.  An address is ASCII text: the
    white-space characters beyond ASCII are not listed. *)
Definition is_space (c : ascii) : bool :=
  let n := nat_of_ascii c in
  ((9 <=? n) && (n <=? 13) || (n =? 32))%nat.

Fixpoint skip_space (s : string) : string :=
  match s with
  | String c rest => if is_space c then skip_space rest else s
  | EmptyString => s
  end.

Definition digit_value (radix : Z) (c : ascii) : option Z :=
  let n := Z.of_nat (nat_of_ascii c) in
  let d :=
    if (48 <=? n) && (n <=? 57) then Some (n - 48)
    else if (97 <=? n) && (n <=? 122) then Some (n - 87)
    else if (65 <=? n) && (n <=? 90) then Some (n - 55)
    else None in
  match d with
  | Some v => if v <? radix then Some v else None
  | None => None
  end%Z.

(** The value of the longest prefix of digits; [None] without a digit. *)
Fixpoint digits (radix : Z) (s : string) (acc : option Z) : option Z :=
  match s with
  | String c rest =>
      match digit_value radix c with
      | Some v =>
          digits radix rest
            (Some (match acc with Some a => a * radix + v | None => v end))%Z
      | None => acc
      end
  | EmptyString => acc
  end.

(** The numbers the hash of an address can be: NaN, an integer that a
    double holds, or an infinity ([negative] for the sign). *)
Inductive integral : Type :=
| NotANumber
| Integer (z : Z)
| Infinite (negative : bool).

(** The double nearest to an integer, a tie going to the even
    mantissa: an integer below 2^53 in magnitude is held as it is, a
    larger one keeps 53 bits, and one that rounds to 2^1024 or more is
    an infinity. *)
Definition to_double (z : Z) : integral :=
  let a := Z.abs z in
  if a <? 2 ^ 53 then Integer z
  else
    let e := Z.log2 a - 52 in
    let m := a / 2 ^ e in
    let r := a mod 2 ^ e in
    let half := 2 ^ (e - 1) in
    let m' := if (half <? r) || ((r =? half) && Z.odd m) then m + 1 else m in
    let v := m' * 2 ^ e in
    if 2 ^ 1024 <=? v then Infinite (z <? 0) else Integer (Z.sgn z * v).

(** [a + b] on these numbers: the sum of two integers is rounded to a
    double again. *)
Definition plus (a b : integral) : integral :=
  match a, b with
  | NotANumber, _ | _, NotANumber => NotANumber
  | Integer x, Integer y => to_double (x + y)
  | Infinite s, Infinite t => if Bool.eqb s t then Infinite s else NotANumber
  | Infinite s, Integer _ | Integer _, Infinite s => Infinite s
  end.

(** [parseInt(s)] with no radix argument: the digits are read as an
    integer, which becomes the nearest double. *)
Definition parseInt (s : string) : integral :=
  let s1 := skip_space s in
  let '(sign, s2) :=
    match s1 with
    | String "-" rest => ((-1)%Z, rest)
    | String "+" rest => (1%Z, rest)
    | _ => (1%Z, s1)
    end in
  let '(radix, s3) :=
    match s2 with
    | String "0" (String "x" rest) => (16%Z, rest)
    | String "0" (String "X" rest) => (16%Z, rest)
    | _ => (10%Z, s2)
    end in
  match digits radix s3 None with
  | Some mathInt => to_double (sign * mathInt)
  | None => NotANumber
  end.

(** [ip.split('.').reduce((acc, octet) => acc + parseInt(octet), 0)] *)
Definition ip_hash (ip : string) : integral :=
  fold_left (fun acc octet => plus acc (parseInt octet))
            (split_dot ip) (Integer 0).

(** [locations[hash % locations.length]]: [%] takes the sign of the
    hash and is NaN for a hash that is NaN or infinite, and an index
    that is NaN or negative selects nothing ([undefined]). *)
Definition getServerLocation (ip : string) : option location :=
  match ip_hash ip with
  | Integer hash =>
      let r := Z.rem hash (Z.of_nat (List.length locations)) in
      if (r <? 0)%Z then None else nth_error locations (Z.to_nat r)
  | NotANumber | Infinite _ => None
  end.

Definition location_json (l : location) : json :=
  JObj [ ("name", JStr (name l)); ("lat", JNum (lat l));
         ("lon", JNum (lon l)); ("region", JStr (region l)) ]%string.

(** *** The state of a connection *)

(** [uploadData], [uploadStartTime] and [totalUploadBytes] are the
    variables of one connection's closure; [lastLatency] is the
    module-level variable every connection shares. *)
Record state : Type := {
  uploadData : list (list Byte.byte);
  uploadStartTime : option Z;
  totalUploadBytes : Z;
  lastLatency : JS.number
}.

(** [if (uploadStartTime)]: [null] and [0] are falsy. *)
Definition started (s : state) : option Z :=
  match uploadStartTime s with
  | Some t => if (t =? 0)%Z then None else Some t
  | None => None
  end.

(** The [connection] listener: [getServerLocation], the log line (which
    reads [serverLocation.name] and throws when no location was
    selected), the [server-info] frame, and the fresh closure
    variables.  [now] is the reading of [Date.now()]. *)
Definition server_info (l : location) (now : Z) : json :=
  JObj [ ("type", JStr "server-info");
         ("server", location_json l);
         ("timestamp", JNum (inject_Z now)) ]%string.

Definition on_connection (clientIp : string) (now : Z) (last : JS.number)
  : completion (list sent * state) :=
  match getServerLocation clientIp with
  | None => Throws
  | Some serverLocation =>
      Normal ([SendJSON (server_info serverLocation now)],
              {| uploadData := []; uploadStartTime := None;
                 totalUploadBytes := 0; lastLatency := last |})
  end.

(** The member [name] of a serialised object handed to [ws.send]. *)
Definition sent_member (name : string) (f : sent) : option json :=
  match f with
  | SendJSON (JObj members) => assoc name members
  | _ => None
  end.

(** What the [server] member of each frame of a connection is. *)
Definition connection_server (r : completion (list sent * state))
  : completion (list (option json)) :=
  match r with
  | Normal (frames, _) => Normal (map (sent_member "server") frames)
  | Throws => Throws
  end.

(** *** Jitter *)

(** [calculateJitter(currentLatency)], on the shared [lastLatency]:
    the returned jitter and the new [lastLatency]. *)
Definition calculateJitter (currentLatency lastLatency : JS.number)
  : JS.number * JS.number :=
  if strict_eq lastLatency (Fin 0)
  then (Fin 0, currentLatency)
  else (abs (sub currentLatency lastLatency), currentLatency).

(** The jitters returned for a series of latencies, in order. *)
Fixpoint jitters (latencies : list JS.number) (lastLatency : JS.number)
  : list JS.number :=
  match latencies with
  | [] => []
  | l :: rest =>
      let '(j, last') := calculateJitter l lastLatency in
      j :: jitters rest last'
  end.

(** *** Rates *)

(** [(bytes * 8) / (elapsed / 1000) / 1000000], the expression of every
    rate the server reports. *)
Definition mbps (bytes elapsed : Z) : JS.number :=
  div (div (mul (of_Z bytes) (Fin 8)) (div (of_Z elapsed) (Fin 1000)))
      (Fin 1000000).

(** *** The download test *)

(** What the environment decides while [handleDownloadTest] runs: the
    clock at its start, at each progress report and at its end, and
    whether the socket is still open when iteration [i] begins.  A
    loop without bound ends only when the socket is found closed;
    [observed] is the number of iterations for which such a loop is
    followed. *)
Record download_env : Type := {
  startClock : Z;
  sockOpen : nat -> bool;
  progressClock : nat -> Z;
  endClock : Z;
  observed : nat
}.

(** What the environment decides for one [message] event: the reading
    of [Date.now()] in the synchronous branches, and the course of a
    download test. *)
Record env : Type := {
  now : Z;
  download : download_env
}.

Section Handler.

(** The conversion of a string to a number ([StringToNumber] of the
    language), which the handler reaches when a numeric member arrives
    as a string. *)
Variable StringToNumber : string -> JS.number.

(** [ToNumber] of a JSON value.  An array converts through its string
    form: the empty array and [[null]] give the empty string, a single
    item gives the item's string, and more items give a text with a
    comma, which is no number. *)
Fixpoint to_number (j : json) : JS.number :=
  match j with
  | JNull => Fin 0
  | JBool b => if b then Fin 1 else Fin 0
  | JNum q => Fin q
  | JStr s => StringToNumber s
  | JArr [] => StringToNumber ""
  | JArr [item] =>
      match item with
      | JNull => StringToNumber ""
      | JBool _ | JObj _ => NaN
      | _ => to_number item
      end
  | JArr _ => NaN
  | JObj _ => NaN
  end.

(** [ToNumber] of a member that may be [undefined]. *)
Definition member_number (v : option json) : JS.number :=
  match v with
  | Some j => to_number j
  | None => NaN
  end.

(** The property key [TEST_CHUNKS[size]] looks up, where it can name a
    chunk: a string, or an array around one. *)
Fixpoint chunk_key (size : json) : option string :=
  match size with
  | JStr s => Some s
  | JArr [item] => chunk_key item
  | _ => None
  end.

(** The names every object inherits from [Object.prototype]: the
    table answers them too, with a function or an object. *)
Definition Object_prototype : list string :=
  [ "constructor"; "__defineGetter__"; "__defineSetter__"; "hasOwnProperty";
    "__lookupGetter__"; "__lookupSetter__"; "isPrototypeOf";
    "propertyIsEnumerable"; "toString"; "valueOf"; "__proto__";
    "toLocaleString" ].

(** What [TEST_CHUNKS[size] || TEST_CHUNKS['10mb']] selects: one of the
    buffers, by its length, or an inherited value that is no buffer. *)
Inductive chunk : Type :=
| Buffer (length : Z)
| NotABuffer.

(** [TEST_CHUNKS[size] || TEST_CHUNKS['10mb']] with [size = '10mb'] by
    default.  The six buffers are the table's own members; an inherited
    name is answered with a value that is truthy, so that the 10mb
    buffer does not replace it; every other key gives the 10mb
    buffer. *)
Definition select_chunk (size : option json) : chunk :=
  let key := match size with
             | None => Some "10mb"
             | Some j => chunk_key j
             end in
  match key with
  | Some k =>
      match lookup_chunk k TEST_CHUNKS with
      | Some len => Buffer len
      | None =>
          if existsb (String.eqb k) Object_prototype
          then NotABuffer
          else Buffer (10 * 1024 * 1024)
      end
  | None => Buffer (10 * 1024 * 1024)
  end.

(** Whether the socket is found closed at one of the iterations [i] to
    [i + k]. *)
Fixpoint closes_within (e : download_env) (k i : nat) : bool :=
  negb (sockOpen e i)
  || match k with
     | O => false
     | S k' => closes_within e k' (S i)
     end.

(** How often [i < chunkCount] holds from [i = 0] on; [None] when it
    always holds. *)
Definition iterations (chunkCount : JS.number) : option nat :=
  match chunkCount with
  | Fin q => Some (Z.to_nat (Qceiling q))
  | PInf => None
  | NInf | NaN => Some 0%nat
  end.

Definition download_progress (e : download_env) (chunkCount : JS.number)
  (i : nat) (bytesSent : Z) : json :=
  let elapsed := progressClock e i - startClock e in
  JObj [ ("type", JStr "download-progress");
         ("speed", num_json (mbps bytesSent elapsed));
         ("bytesDownloaded", JNum (inject_Z bytesSent));
         ("progress",
          num_json (mul (div (of_Z (Z.of_nat i + 1)) chunkCount) (Fin 100)));
         ("elapsed", JNum (inject_Z elapsed)) ].

(** The [for] loop, with [k] iterations left: the bytes sent when it
    ends and the frames it sends. *)
Fixpoint download_loop (e : download_env) (chunkLen : Z)
  (chunkCount : JS.number) (k i : nat) (bytesSent : Z) : Z * list sent :=
  match k with
  | O => (bytesSent, [])
  | S k' =>
      if negb (sockOpen e i) then (bytesSent, [])
      else
        let bytesSent' := bytesSent + chunkLen in
        let report :=
          if (Nat.eqb (Nat.modulo i 2) 0)
          then [SendJSON (download_progress e chunkCount i bytesSent')]
          else [] in
        let '(total, frames) :=
          download_loop e chunkLen chunkCount k' (S i) bytesSent' in
        (total, SendChunk chunkLen :: report ++ frames)
  end.

Definition download_complete (bytesSent totalElapsed : Z) : json :=
  JObj [ ("type", JStr "download-complete");
         ("speed", num_json (mbps bytesSent totalElapsed));
         ("totalBytes", JNum (inject_Z bytesSent));
         ("duration", JNum (inject_Z totalElapsed)) ].

(** A run of [handleDownloadTest(ws, data)]: the frames it sends and
    whether it ends by throwing.  [ws.send] throws when it is handed a
    value that is no buffer, which is in the first iteration, before
    anything was sent; otherwise the run sends its chunks and reports
    and ends with the completion message.  A loop without bound is
    followed until the socket is found closed; the result is [None]
    when that does not happen within the iterations observed. *)
Definition download_run (e : download_env) (data : list (string * json))
  : option (list sent * bool) :=
  let chunkCount :=
    match assoc "chunkCount" data with
    | None => Fin 10
    | Some j => to_number j
    end in
  let totalElapsed := endClock e - startClock e in
  match select_chunk (assoc "size" data) with
  | NotABuffer =>
      let enters :=
        match iterations chunkCount with
        | Some O => false
        | _ => sockOpen e 0
        end in
      if enters then Some ([], true)
      else Some ([SendJSON (download_complete 0 totalElapsed)], false)
  | Buffer chunkLen =>
      let bound :=
        match iterations chunkCount with
        | Some k => Some k
        | None =>
            if closes_within e (observed e) 0
            then Some (S (observed e))
            else None
        end in
      match bound with
      | None => None
      | Some k =>
          let '(bytesSent, frames) :=
            download_loop e chunkLen chunkCount k 0 0 in
          Some (frames
                ++ [SendJSON (download_complete bytesSent totalElapsed)],
                false)
      end
  end.


(** *** The message listener *)

Definition error_message : json :=
  JObj [ ("type", JStr "error");
         ("message", JStr "Test failed. Please try again.") ].

Definition upload_ready : json :=
  JObj [ ("type", JStr "upload-ready");
         ("message", JStr "Ready to receive upload data") ].

Definition pong (data : json) : completion json :=
  match member data "timestamp" with
  | Throws => Throws
  | Normal ts =>
      Normal (JObj (stringify_members
                      [ ("type", Some (JStr "pong")); ("timestamp", ts) ]))
  end.

Definition upload_progress (total elapsed : Z) : json :=
  JObj [ ("type", JStr "upload-progress");
         ("speed", num_json (mbps total elapsed));
         ("bytesTransferred", JNum (inject_Z total));
         ("elapsed", JNum (inject_Z elapsed)) ].

Definition upload_complete (total elapsed : Z) : json :=
  JObj [ ("type", JStr "upload-complete");
         ("speed", num_json (mbps total UPLOAD_TEST_DURATION));
         ("totalBytes", JNum (inject_Z total));
         ("duration", JNum (inject_Z elapsed)) ].

(** The [case] labels of the [switch] on [data.type]. *)
Definition recognised : list string :=
  [ "start-download"; "start-upload"; "ping"; "latency-test" ].

(** The [switch] on [data.type] of a parsed control message. *)
Definition on_control (e : env) (data : json) (s : state)
  : option (state * list sent) :=
  match member data "type" with
  | Throws => Some (s, [SendJSON error_message])
  | Normal (Some (JStr tag)) =>
      if String.eqb tag "start-download" then
        match data with
        | JObj members =>
            match download_run (download e) members with
            | Some (frames, false) => Some (s, frames)
            | Some (frames, true) =>
                Some (s, frames ++ [SendJSON error_message])
            | None => None
            end
        | _ => Some (s, [])
        end
      else if String.eqb tag "start-upload" then
        Some ({| uploadData := [];
                 uploadStartTime := Some (now e);
                 totalUploadBytes := 0;
                 lastLatency := lastLatency s |},
              [SendJSON upload_ready])
      else if String.eqb tag "ping" then
        match pong data with
        | Normal reply => Some (s, [SendJSON reply])
        | Throws => Some (s, [SendJSON error_message])
        end
      else if String.eqb tag "latency-test" then
        match member data "timestamp" with
        | Throws => Some (s, [SendJSON error_message])
        | Normal ts =>
            let latency := sub (of_Z (now e)) (member_number ts) in
            let '(jitter, last') := calculateJitter latency (lastLatency s) in
            Some ({| uploadData := uploadData s;
                     uploadStartTime := uploadStartTime s;
                     totalUploadBytes := totalUploadBytes s;
                     lastLatency := last' |},
                  [SendJSON (JObj [ ("type", JStr "latency-result");
                                    ("latency", num_json latency);
                                    ("jitter", num_json jitter) ])])
        end
      else Some (s, [])
  | Normal _ => Some (s, [])
  end.

(** The branch for a message that is not a string: upload data. *)
Definition on_binary (e : env) (message : list Byte.byte) (s : state)
  : state * list sent :=
  match started s with
  | None => (s, [])
  | Some start =>
      let total := totalUploadBytes s + Z.of_nat (List.length message) in
      let data := uploadData s ++ [message] in
      let elapsed := now e - start in
      let progress :=
        if elapsed >=? 1000
        then [SendJSON (upload_progress total elapsed)] else [] in
      if elapsed >=? UPLOAD_TEST_DURATION
      then ({| uploadData := [];
               uploadStartTime := None;
               totalUploadBytes := total;
               lastLatency := lastLatency s |},
            progress ++ [SendJSON (upload_complete total elapsed)])
      else ({| uploadData := data;
               uploadStartTime := uploadStartTime s;
               totalUploadBytes := total;
               lastLatency := lastLatency s |},
            progress)
  end.

(** The [message] listener: the new state and the frames sent, in
    order; [None] when a download loop without bound was started.  A
    text that does not parse is answered from the [catch] clause. *)
Definition on_message (e : env) (message : frame) (s : state)
  : option (state * list sent) :=
  match message with
  | Text None => Some (s, [SendJSON error_message])
  | Text (Some data) => on_control e data s
  | Binary payload => Some (on_binary e payload s)
  end.

End Handler.

End Server.

(* ================================================================== *)
(** ** The professional client *)
(* ================================================================== *)

Module Client.

Import JS.

(** [this.results] *)
Record test_results : Type := {
  download : list JS.number;
  upload : list JS.number;
  ping : list JS.number;
  jitter : list JS.number
}.

Definition no_results : test_results :=
  {| download := []; upload := []; ping := []; jitter := [] |}.

(** The variables of a [testLatency] call, which [sendPing], the two
    timer callbacks and [handlePong] share. *)
Record latency_run : Type := {
  pings : list JS.number;
  pingCount : Z
}.

(** The variables of a [testDownloadSpeed] or [testUploadSpeed] call,
    which the interval callback updates. *)
Record transfer : Type := {
  totalBytes : Z;
  startTime : Z;
  speeds : list JS.number;
  chunk : Z
}.

(** The promise [startFullTest] is suspended on. *)
Inductive stage : Type :=
| Idle
| AwaitLatency
| AwaitDownload (x : transfer)
| AwaitUpload (x : transfer).

(** [pending] is where [startFullTest] waits; [latencyRun] is the
    closure of the latest [testLatency] call, to which [this.handlePong]
    and the pending timers of that call refer. *)
Record session : Type := {
  testInProgress : bool;
  currentTest : option string;
  results : test_results;
  latencyRun : option latency_run;
  pending : stage
}.

(** What an element is made to show. *)
Inductive text : Type :=
| Num (x : JS.number)                (* a number *)
| Fixed1 (x : JS.number)             (* [x.toFixed(1)] *)
| JitterFixed1 (ps : list JS.number) (* [this.calculateJitter(ps).toFixed(1)] *)
| Suffixed (t : text) (suffix : string).

(** What a handler does to the page, the socket and the timers, in
    order.  [updateProgress] and [updateGauge] are methods of the class
    whose calls are recorded with their arguments. *)
Inductive effect : Type :=
| Disabled (b : bool)                        (* [startButton.disabled = b] *)
| Testing (b : bool)                         (* class [testing] of the button *)
| Display (element value : string)           (* [element.style.display = value] *)
| TextContent (element : string) (t : text)  (* [element.textContent = t] *)
| UpdateProgress (label : string) (percent : JS.number)
| UpdateGauge (speed : JS.number)
| WsSend (j : json)
| SetTimeout (ms : Z)
| SetInterval (ms : Z)
| ClearInterval.

(** What the environment decides during one handler: two readings of
    [Date.now()] in the order the handler takes them, whether the
    socket is open, and the value of [Math.random()]. *)
Record env : Type := {
  clock : Z;
  clock' : Z;
  wsOpen : bool;
  random : Q
}.

Definition targetPings : Z := 10.

(** [xs.reduce((a, b) => a + b, 0) / xs.length] *)
Definition mean (xs : list JS.number) : JS.number :=
  div (sum xs) (of_Z (Z.of_nat (List.length xs))).

(** [Math.round(avgPing)], the latency shown. *)
Definition shown_latency (pings : list JS.number) : JS.number :=
  round (mean pings).

(** [(totalBytes * 8) / seconds / 1000000] with
    [seconds = (now - startTime) / 1000], the rate both the running and
    the final display of a transfer use. *)
Definition rate (x : transfer) (now : Z) : JS.number :=
  let seconds := div (of_Z (now - startTime x)) (Fin 1000) in
  div (div (mul (of_Z (totalBytes x)) (Fin 8)) seconds) (Fin 1000000).

Definition fresh_transfer (now : Z) : transfer :=
  {| totalBytes := 0; startTime := now; speeds := []; chunk := 0 |}.

(** The entry of [testDownloadSpeed], up to [setInterval]. *)
Definition testDownloadSpeed (e_now : Z) (s : session)
  : session * list effect :=
  ({| testInProgress := testInProgress s;
      currentTest := Some "download";
      results := results s;
      latencyRun := latencyRun s;
      pending := AwaitDownload (fresh_transfer e_now) |},
   [UpdateProgress "Testing download speed..." (Fin 20); SetInterval 100]).

(** The entry of [testUploadSpeed], up to [setInterval]. *)
Definition testUploadSpeed (e_now : Z) (s : session)
  : session * list effect :=
  ({| testInProgress := testInProgress s;
      currentTest := Some "upload";
      results := results s;
      latencyRun := latencyRun s;
      pending := AwaitUpload (fresh_transfer e_now) |},
   [UpdateProgress "Testing upload speed..." (Fin 60); SetInterval 100]).

Definition ping_message (start : Z) : json :=
  JObj [ ("type", JStr "ping"); ("timestamp", JNum (inject_Z start)) ].

(** [sendPing()] on the closure [r].  When enough pings were counted
    it shows the results and resolves the promise of [testLatency];
    only the first resolution resumes [startFullTest], which then
    enters the download test.  [now] is the one clock reading either
    path takes. *)
Definition sendPing (now : Z) (open : bool) (r : latency_run) (s : session)
  : session * list effect :=
  if pingCount r >=? targetPings then
    let shown :=
      [ TextContent "pingSpeed" (Num (shown_latency (pings r)));
        TextContent "jitterSpeed" (JitterFixed1 (pings r)) ] in
    let s1 :=
      {| testInProgress := testInProgress s;
         currentTest := currentTest s;
         results := {| download := download (results s);
                        upload := upload (results s);
                        ping := pings r;
                        jitter := jitter (results s) |};
         latencyRun := Some r;
         pending := pending s |} in
    match pending s with
    | AwaitLatency =>
        let '(s2, entered) := testDownloadSpeed now s1 in
        (s2, shown ++ entered)
    | _ => (s1, shown)
    end
  else
    ({| testInProgress := testInProgress s;
        currentTest := currentTest s;
        results := results s;
        latencyRun := Some r;
        pending := pending s |},
     if open
     then [WsSend (ping_message now); SetTimeout 200]
     else [SetTimeout 100]).

Definition latency_progress (count : Z) : effect :=
  UpdateProgress "Testing latency..."
    (add (Fin 10) (mul (div (of_Z count) (of_Z targetPings)) (Fin 10))).

(** [startFullTest()], up to its first suspension: the session, what
    was done, and the promise returned. *)
Definition startFullTest (e : env) (s : session)
  : session * list effect * settlement :=
  if testInProgress s then (s, [], Fulfilled)
  else
    let r := {| pings := []; pingCount := 0 |} in
    let s1 :=
      {| testInProgress := true;
         currentTest := Some "latency";
         results := no_results;
         latencyRun := Some r;
         pending := AwaitLatency |} in
    let '(s2, sent) := sendPing (clock e) (wsOpen e) r s1 in
    (s2,
     [ Disabled true; Testing true;
       Display "progressSection" "block"; Display "liveStats" "flex";
       Display "advancedMetrics" "none";
       UpdateProgress "Preparing test..." (Fin 0);
       UpdateProgress "Testing latency..." (Fin 10) ] ++ sent,
     Pending).

(** [handlePong(data)] as [testLatency] installs it; [timestamp] is the
    number [data.timestamp] converts to. *)
Definition handlePong (e : env) (timestamp : JS.number) (r : latency_run)
  (s : session) : session * list effect :=
  let latency := sub (of_Z (clock e)) timestamp in
  let r' := {| pings := pings r ++ [latency]; pingCount := pingCount r + 1 |} in
  let '(s', sent) := sendPing (clock' e) (wsOpen e) r' s in
  (s', [ latency_progress (pingCount r');
         TextContent "pingSpeed" (Num (shown_latency (pings r'))) ] ++ sent).

(** The timer set after a ping was sent (200 ms). *)
Definition fallbackTimeout (e : env) (r : latency_run) (s : session)
  : session * list effect :=
  if pingCount r <? targetPings then
    let r' := {| pings := pings r ++ [add (Fin 50) (mul (Fin (random e)) (Fin 30))];
                 pingCount := pingCount r + 1 |} in
    sendPing (clock e) (wsOpen e) r' s
  else (s, []).

(** The timer set when the socket is not open (100 ms). *)
Definition offlineTimeout (e : env) (r : latency_run) (s : session)
  : session * list effect :=
  let r' := {| pings := pings r ++ [add (Fin 20) (mul (Fin (random e)) (Fin 40))];
               pingCount := pingCount r + 1 |} in
  let '(s', sent) := sendPing (clock e) (wsOpen e) r' s in
  (s', latency_progress (pingCount r') :: sent).

(** [duration / interval] of the download test: 8000 / 100. *)
Definition download_chunks : Z := 80.
(** [duration / interval] of the upload test: 5000 / 100. *)
Definition upload_chunks : Z := 50.

(** [chunk >= chunks || !this.testInProgress], the test with which
    both interval callbacks begin. *)
Definition finished (chunks : Z) (s : session) (x : transfer) : bool :=
  (chunk x >=? chunks) || negb (testInProgress s).

(** The interval callback of [testDownloadSpeed] on the closure [x].
    When the test is finished it clears the interval, shows the final
    rate, stores the rates collected and resolves the promise, on which
    [startFullTest] enters the upload test. *)
Definition download_tick (e : env) (x : transfer) (s : session)
  : session * list effect :=
  if finished download_chunks s x then
    let avgSpeedMbps := rate x (clock e) in
    let s1 :=
      {| testInProgress := testInProgress s;
         currentTest := currentTest s;
         results := {| download := speeds x;
                        upload := upload (results s);
                        ping := ping (results s);
                        jitter := jitter (results s) |};
         latencyRun := latencyRun s;
         pending := pending s |} in
    let '(s2, entered) := testUploadSpeed (clock' e) s1 in
    (s2,
     [ ClearInterval;
       TextContent "downloadSpeed" (Fixed1 avgSpeedMbps);
       UpdateGauge avgSpeedMbps ] ++ entered)
  else
    let chunkSize := 1024 * 1024 in
    let x1 := {| totalBytes := totalBytes x + chunkSize;
                 startTime := startTime x;
                 speeds := speeds x;
                 chunk := chunk x |} in
    let elapsed := div (of_Z (clock e - startTime x)) (Fin 1000) in
    let instantSpeed := rate x1 (clock e) in
    let progress :=
      add (Fin 20)
          (mul (div (of_Z (chunk x)) (of_Z download_chunks)) (Fin 40)) in
    ({| testInProgress := testInProgress s;
        currentTest := currentTest s;
        results := results s;
        latencyRun := latencyRun s;
        pending := AwaitDownload
                     {| totalBytes := totalBytes x1;
                        startTime := startTime x;
                        speeds := speeds x ++ [instantSpeed];
                        chunk := chunk x + 1 |} |},
     [ UpdateProgress "Testing download speed..." progress;
       TextContent "liveSpeed" (Suffixed (Num (round instantSpeed)) " Mbps");
       TextContent "dataTransferred"
         (Suffixed
            (Fixed1 (div (div (of_Z (totalBytes x1)) (Fin 1024)) (Fin 1024)))
            " MB");
       TextContent "elapsedTime" (Suffixed (Num (round elapsed)) "s");
       TextContent "currentSpeed" (Num (round instantSpeed));
       UpdateGauge instantSpeed ]).

(** What happens to the client. *)
Inductive event : Type :=
| Click                          (* the start button *)
| Pong (timestamp : JS.number)   (* a [pong] frame *)
| FallbackTimer
| OfflineTimer
| DownloadTimer.

(** One handler run.  [None] where no handler of this model applies:
    a [pong] before any latency test (it would go to the class's own
    [handlePong]), and a timer without the closure it belongs to. *)
Definition step (e : env) (ev : event) (s : session)
  : option (session * list effect) :=
  match ev with
  | Click => Some (fst (startFullTest e s))
  | Pong timestamp =>
      option_map (fun r => handlePong e timestamp r s) (latencyRun s)
  | FallbackTimer =>
      option_map (fun r => fallbackTimeout e r s) (latencyRun s)
  | OfflineTimer =>
      option_map (fun r => offlineTimeout e r s) (latencyRun s)
  | DownloadTimer =>
      match pending s with
      | AwaitDownload x => Some (download_tick e x s)
      | _ => None
      end
  end.

(** The session after a series of handler runs, each with what the
    environment decided for it. *)
Fixpoint run (evs : list (env * event)) (s : session) : option session :=
  match evs with
  | [] => Some s
  | (e, ev) :: rest =>
      match step e ev s with
      | Some (s', _) => run rest s'
      | None => None
      end
  end.

Definition initial : session :=
  {| testInProgress := false;
     currentTest := None;
     results := no_results;
     latencyRun := None;
     pending := Idle |}.

(** The method [handleWebSocketMessage] hands a frame to, with its
    argument.  Of these methods only [handlePong], as [testLatency]
    installs it, is embedded above. *)
Inductive dispatch : Type :=
| HandleBinaryMessage
| UpdateServerInfo (server : option json)
| HandlePong (data : json)
| HandleLatencyResult (data : json)
| HandleDownloadProgress (data : json)
| HandleDownloadComplete (data : json)
| HandleUploadProgress (data : json)
| HandleUploadComplete (data : json)
| ShowToastAndResetTest (message : option json)
| LogParseError          (* the [catch] clause: [console.error] *)
| Ignored.               (* no [case] matched *)

(** The [case] labels of the [switch] on [data.type]. *)
Definition recognised : list string :=
  [ "server-info"; "pong"; "latency-result"; "download-progress";
    "download-complete"; "upload-progress"; "upload-complete"; "error" ].

(** [handleWebSocketMessage(event)]: a [Blob] goes to
    [handleBinaryMessage], a text is parsed and its [type] selects the
    method. *)
Definition handleWebSocketMessage (message : frame) : dispatch :=
  match message with
  | Binary _ => HandleBinaryMessage
  | Text None => LogParseError
  | Text (Some data) =>
      match member data "type" with
      | Throws => LogParseError
      | Normal (Some (JStr tag)) =>
          if String.eqb tag "server-info" then
            match member data "server" with
            | Normal server => UpdateServerInfo server
            | Throws => LogParseError
            end
          else if String.eqb tag "pong" then HandlePong data
          else if String.eqb tag "latency-result" then HandleLatencyResult data
          else if String.eqb tag "download-progress" then HandleDownloadProgress data
          else if String.eqb tag "download-complete" then HandleDownloadComplete data
          else if String.eqb tag "upload-progress" then HandleUploadProgress data
          else if String.eqb tag "upload-complete" then HandleUploadComplete data
          else if String.eqb tag "error" then
            match member data "message" with
            | Normal message => ShowToastAndResetTest message
            | Throws => LogParseError
            end
          else Ignored
      | Normal _ => Ignored
      end
  end.

End Client.

(* ================================================================== *)
(** ** The simple client *)
(* ================================================================== *)

Module Simple.

Import JS.

(** How the loading of a test image ends: loaded, with the clock before
    and after, or failed. *)
Inductive load : Type :=
| Loaded (start finish : Z)
| Failed.

(** The point at which [startSpeedTest] is suspended: not running,
    waiting for the five pings, or waiting for measurement [i] of the
    download or upload loop with [totalSpeed] so far. *)
Inductive stage : Type :=
| Idle
| AwaitPings
| AwaitDownload (i : Z) (totalSpeed : JS.number)
| AwaitUpload (i : Z) (totalSpeed : JS.number).

(** The fields of [SpeedTest] the measurement uses; the page is written
    from them and its elements are not part of the model. *)
Record state : Type := {
  downloadSpeed : JS.number;
  uploadSpeed : JS.number;
  pingSpeed : JS.number;
  testInProgress : bool;
  pending : stage
}.

(** [measurePing()] *)
Definition measurePing (l : load) : JS.number :=
  match l with
  | Loaded start finish => of_Z (finish - start)
  | Failed => Fin 1000
  end.

(** [Math.round(pingResults.reduce((a, b) => a + b, 0) / pingResults.length)] *)
Definition testPing (pingResults : list JS.number) : JS.number :=
  round (div (sum pingResults) (of_Z (Z.of_nat (List.length pingResults)))).

(** [measureDownloadSpeed()]; [rnd] is the value of [Math.random()]. *)
Definition measureDownloadSpeed (l : load) (rnd : Q) : JS.number :=
  match l with
  | Loaded start finish =>
      let downloadSize := 5000000 in
      let duration := div (of_Z (finish - start)) (Fin 1000) in
      let speedMbps :=
        div (div (mul (of_Z downloadSize) (Fin 8)) duration) (Fin 1000000) in
      min speedMbps (Fin 1000)
  | Failed => add (mul (Fin rnd) (Fin 100)) (Fin 50)
  end.

(** [measureUploadSpeed()] *)
Definition measureUploadSpeed (downloadSpeed : JS.number) (rnd : Q)
  : JS.number :=
  min (mul downloadSpeed (add (mul (Fin rnd) (Fin 0.3)) (Fin 0.2))) (Fin 500).

(** [updateGaugeBasedOnSpeed(speed)]: the rotation of the gauge, in
    degrees. *)
Definition updateGaugeBasedOnSpeed (speed : JS.number) : JS.number :=
  let maxSpeed := Fin 300 in
  let percentage := min (mul (div speed maxSpeed) (Fin 100)) (Fin 100) in
  add (Fin 135) (mul (div percentage (Fin 100)) (Fin 180)).

(** [startSpeedTest()], up to its first suspension: the state and the
    promise returned. *)
Definition startSpeedTest (s : state) : state * settlement :=
  if testInProgress s then (s, Fulfilled)
  else ({| downloadSpeed := Fin 0;
           uploadSpeed := Fin 0;
           pingSpeed := Fin 0;
           testInProgress := true;
           pending := AwaitPings |},
        Pending).

Inductive event : Type :=
| Click
| PingsSettled (loads : list load)       (* [Promise.all] of the five pings *)
| DownloadSettled (l : load) (rnd : Q)   (* one download measurement *)
| UploadTimer (rnd : Q).                 (* one upload measurement *)

(** The continuation of [startSpeedTest] at each event; an event that
    does not belong to the pending stage changes nothing. *)
Definition step (ev : event) (s : state) : state :=
  match ev, pending s with
  | Click, _ => fst (startSpeedTest s)
  | PingsSettled loads, AwaitPings =>
      {| downloadSpeed := downloadSpeed s;
         uploadSpeed := uploadSpeed s;
         pingSpeed := testPing (map measurePing loads);
         testInProgress := testInProgress s;
         pending := AwaitDownload 0 (Fin 0) |}
  | DownloadSettled l rnd, AwaitDownload i totalSpeed =>
      let totalSpeed' := add totalSpeed (measureDownloadSpeed l rnd) in
      if i + 1 <? 5
      then {| downloadSpeed := downloadSpeed s;
              uploadSpeed := uploadSpeed s;
              pingSpeed := pingSpeed s;
              testInProgress := testInProgress s;
              pending := AwaitDownload (i + 1) totalSpeed' |}
      else {| downloadSpeed := div totalSpeed' (Fin 5);
              uploadSpeed := uploadSpeed s;
              pingSpeed := pingSpeed s;
              testInProgress := testInProgress s;
              pending := AwaitUpload 0 (Fin 0) |}
  | UploadTimer rnd, AwaitUpload i totalSpeed =>
      let totalSpeed' :=
        add totalSpeed (measureUploadSpeed (downloadSpeed s) rnd) in
      if i + 1 <? 3
      then {| downloadSpeed := downloadSpeed s;
              uploadSpeed := uploadSpeed s;
              pingSpeed := pingSpeed s;
              testInProgress := testInProgress s;
              pending := AwaitUpload (i + 1) totalSpeed' |}
      else {| downloadSpeed := downloadSpeed s;
              uploadSpeed := div totalSpeed' (Fin 3);
              pingSpeed := pingSpeed s;
              testInProgress := false;
              pending := Idle |}
  | _, _ => s
  end.

End Simple.

(* ================================================================== *)
(** ** The specification's jitter *)
(* ================================================================== *)

Module Spec.

Import JS.

(** The specification's words: the absolute differences between
    consecutive samples ... *)
Fixpoint consecutive_differences (rtts : list Q) : list Q :=
  match rtts with
  | a :: (b :: _) as rest => Qabs (b - a) :: consecutive_differences rest
  | _ => []
  end.

(** ... and their mean, [None] when there is no difference to average. *)
Definition mean_absolute_difference (rtts : list Q) : option Q :=
  match consecutive_differences rtts with
  | [] => None
  | ds => Some (fold_right Qplus 0%Q ds / inject_Z (Z.of_nat (List.length ds)))%Q
  end.

End Spec.

(* ================================================================== *)
(** ** Inputs for the examples *)
(* ================================================================== *)

Module Examples.

(** A series of latencies is free of zeros. *)
Definition nonzero (q : Q) : Prop := ~ q == 0.

(** The frames of the examples carry no number as a string; the
    conversion they are run with finds no number in any string. *)
Definition no_number (s : string) : JS.number := JS.NaN.

(** A download test that starts and ends within one millisecond. *)
Definition instant : Server.download_env :=
  {| Server.startClock := 1000;
     Server.sockOpen := fun _ => true;
     Server.progressClock := fun _ => 1000;
     Server.endClock := 1000;
     Server.observed := 100 |}.

Definition at_time (t : Z) : Server.env :=
  {| Server.now := t; Server.download := instant |}.


(** [{"type":"ping","seq":7,"sendTime":1000}] *)
Definition ping_seq : json :=
  JObj [ ("type", JStr "ping"); ("seq", JNum 7); ("sendTime", JNum 1000) ].

(** [{"type":"ping","timestamp":1000}], what the client sends. *)
Definition ping_timestamp : json :=
  JObj [ ("type", JStr "ping"); ("timestamp", JNum 1000) ].

(** [{"type":"bogus"}] *)
Definition bogus : json := JObj [ ("type", JStr "bogus") ].


(** [{"type":"start-upload"}] at clock 1000, then upload messages of
    three and two bytes at clocks 1500 and 2000. *)
Definition two_uploads : list (Server.env * frame) :=
  [ (at_time 1000, Text (Some (JObj [ ("type", JStr "start-upload") ])));
    (at_time 1500, Binary [Byte.x00; Byte.x01; Byte.x02]);
    (at_time 2000, Binary [Byte.x03; Byte.x04]) ].

(** A connection whose upload test began at clock 1000 and has
    buffered one message of three bytes. *)
Definition uploading : Server.state :=
  {| Server.uploadData := [[Byte.x00; Byte.x01; Byte.x02]];
     Server.uploadStartTime := Some 1000;
     Server.totalUploadBytes := 3;
     Server.lastLatency := JS.Fin 0 |}.

(** A connection on which no upload test was started. *)
Definition fresh : Server.state :=
  {| Server.uploadData := [];
     Server.uploadStartTime := None;
     Server.totalUploadBytes := 0;
     Server.lastLatency := JS.Fin 0 |}.

(** The client's environment at clock [t], the socket open. *)
Definition client_at (t : Z) : Client.env :=
  {| Client.clock := t; Client.clock' := t;
     Client.wsOpen := true; Client.random := 0.5 |}.

(** Ten chunks of 1 MiB counted since clock 0. *)
Definition ten_MiB : Client.transfer :=
  {| Client.totalBytes := 10 * 1024 * 1024;
     Client.startTime := 0;
     Client.speeds := [];
     Client.chunk := 10 |}.

(** A session in its download test; [flag] is [testInProgress]. *)
Definition downloading (flag : bool) (x : Client.transfer) : Client.session :=
  {| Client.testInProgress := flag;
     Client.currentTest := Some "download";
     Client.results := Client.no_results;
     Client.latencyRun := None;
     Client.pending := Client.AwaitDownload x |}.

(** The client's environment at clock [t], the socket closed. *)
Definition offline_at (t : Z) : Client.env :=
  {| Client.clock := t; Client.clock' := t;
     Client.wsOpen := false; Client.random := 0.5 |}.

(** [n] runs of one timer, 100 ms apart, after clock [from]. *)
Definition ticks (ev : Client.event) (from : Z) (n : nat)
  : list (Client.env * Client.event) :=
  map (fun k => (offline_at (from + 100 * Z.of_nat k), ev)) (seq 1 n).

(** A click at clock 0 without a socket, the ten timers of the latency
    test, and ten runs of the download timer. *)
Definition ten_chunks : list (Client.env * Client.event) :=
  (offline_at 0, Client.Click)
  :: ticks Client.OfflineTimer 0 10 ++ ticks Client.DownloadTimer 1000 10.

(** The session these events lead to. *)
Definition reached : Client.session :=
  match Client.run ten_chunks Client.initial with
  | Some s => s
  | None => Client.initial
  end.

(** The session with [testInProgress] cleared. *)
Definition cleared (s : Client.session) : Client.session :=
  {| Client.testInProgress := false;
     Client.currentTest := Client.currentTest s;
     Client.results := Client.results s;
     Client.latencyRun := Client.latencyRun s;
     Client.pending := Client.pending s |}.

(** The simple client while its test runs. *)
Definition simple_running : Simple.state :=
  {| Simple.downloadSpeed := JS.Fin 0;
     Simple.uploadSpeed := JS.Fin 0;
     Simple.pingSpeed := JS.Fin 0;
     Simple.testInProgress := true;
     Simple.pending := Simple.AwaitPings |}.



End Examples.

(* ================================================================== *)
(** ** Notions the further properties are stated with *)
(* ================================================================== *)

Module Notions.

(** The pieces of an address written with dots between them. *)
Fixpoint join_dot (pieces : list string) : string :=
  match pieces with
  | [] => EmptyString
  | [piece] => piece
  | piece :: rest => piece ++ String "." (join_dot rest)
  end.

(** A text without a dot. *)
Fixpoint dot_free (s : string) : bool :=
  match s with
  | EmptyString => true
  | String c rest => negb (Ascii.eqb c ".") && dot_free rest
  end.

(** The character of a decimal digit. *)
Definition digit_char (d : nat) : ascii := ascii_of_nat (48 + d).

(** The decimal digits of [n], the last one first; [fuel] bounds their
    number. *)
Fixpoint decimal_rev (fuel n : nat) : list nat :=
  match fuel with
  | O => []
  | S fuel' =>
      Nat.modulo n 10
      :: (if Nat.ltb n 10 then [] else decimal_rev fuel' (Nat.div n 10))
  end.

(** The number a list of decimal digits writes, after the digits
    that wrote [a]. *)
Definition horner (a : Z) (ds : list nat) : Z :=
  fold_left (fun acc d => acc * 10 + Z.of_nat d) ds a.

(** The number a list of decimal digits writes, the last digit first. *)
Definition lsd_value (l : list nat) : nat :=
  fold_right (fun d acc => (d + 10 * acc)%nat) 0%nat l.

(** The decimal text of a natural number, as an address shows it. *)
Definition decimal (n : nat) : string :=
  string_of_list_ascii (map digit_char (rev (decimal_rev (S n) n))).

(** The dotted text of a list of numbers: [dotted [127;0;0;1]] is
    [127.0.0.1]. *)
Definition dotted (octets : list nat) : string :=
  join_dot (map decimal octets).




(** The bytes of the messages buffered in [uploadData]. *)
Definition buffered_bytes (s : Server.state) : Z :=
  fold_right (fun m acc => Z.of_nat (List.length m) + acc) 0
             (Server.uploadData s).

(** While an upload test runs, the byte counter is the size of what is
    buffered. *)
Definition upload_consistent (s : Server.state) : Prop :=
  match Server.started s with
  | Some _ => Server.totalUploadBytes s = buffered_bytes s
  | None => True
  end.

(** The state of a connection after a series of messages, each with
    what the environment decided for it; [None] when a download loop
    without bound was started. *)
Fixpoint serve (S2N : string -> JS.number)
  (messages : list (Server.env * frame)) (s : Server.state)
  : option Server.state :=
  match messages with
  | [] => Some s
  | (e, m) :: rest =>
      match Server.on_message S2N e m s with
      | Some (s', _) => serve S2N rest s'
      | None => None
      end
  end.

(** The events of the timer of the latency test without a socket,
    with the environment of each. *)
Definition offline_timers (envs : list Client.env)
  : list (Client.env * Client.event) :=
  map (fun e => (e, Client.OfflineTimer)) envs.

(** An event of the latency test: a pong or one of its two timers. *)
Definition latency_event (ev : Client.event) : bool :=
  match ev with
  | Client.Pong _ | Client.FallbackTimer | Client.OfflineTimer => true
  | Client.Click | Client.DownloadTimer => false
  end.

(** The events of [n] runs of the download timer, with the
    environment of each. *)
Definition download_timers (envs : list Client.env)
  : list (Client.env * Client.event) :=
  map (fun e => (e, Client.DownloadTimer)) envs.

(** The simple client after a series of events. *)
Definition simple_run (events : list Simple.event) (s : Simple.state)
  : Simple.state :=
  fold_left (fun s ev => Simple.step ev s) events s.

(** The events of a series of download measurements. *)
Definition download_events (measurements : list (Simple.load * Q))
  : list Simple.event :=
  map (fun m => Simple.DownloadSettled (fst m) (snd m)) measurements.

(** The simple client runs a test exactly while it is suspended
    somewhere. *)
Definition single_flight (s : Simple.state) : Prop :=
  Simple.testInProgress s = true <-> Simple.pending s <> Simple.Idle.









End Notions.

(* ================================================================== *)
(** ** Properties *)
(* ================================================================== *)

(** *** Arithmetic of [JS.number] *)

Section NumberFacts.

Import JS.

Lemma is_zero_true (q : Q) : is_zero q = true <-> q == 0.
Proof. unfold is_zero. apply Qeq_bool_iff. Qed.

Lemma is_zero_false (q : Q) : is_zero q = false <-> ~ q == 0.
Proof.
  rewrite <- is_zero_true. destruct (is_zero q); split; intro H.
  - discriminate.
  - exfalso. apply H. reflexivity.
  - discriminate.
  - reflexivity.
Qed.


Lemma is_value_Fin (x q : Q) : x == q -> is_value (Fin x) q.
Proof. intro H. exact H. Qed.

Lemma sub_value (a b : Q) : is_value (sub (Fin a) (Fin b)) (a - b).
Proof. unfold sub, is_value. apply Qred_correct. Qed.

Lemma abs_sub_value (a b : Q) :
  is_value (abs (sub (Fin a) (Fin b))) (Qabs (a - b)).
Proof. unfold sub, abs, is_value. now rewrite !Qred_correct. Qed.

(** Dividing by a finite number that is not zero is the division of
    the rationals. *)
Lemma div_value (a b : Q) : ~ b == 0 -> is_value (div (Fin a) (Fin b)) (a / b).
Proof.
  intro Hb. unfold div, is_value. apply is_zero_false in Hb. rewrite Hb.
  apply Qred_correct.
Qed.

Lemma div_Fin (a b : Q) : ~ b == 0 -> div (Fin a) (Fin b) = Fin (Qred (a / b)).
Proof. intro Hb. unfold div. apply is_zero_false in Hb. now rewrite Hb. Qed.


(** Zero over zero is NaN. *)
Lemma div_zero_zero (a b : Q) : a == 0 -> b == 0 -> div (Fin a) (Fin b) = NaN.
Proof.
  intros Ha Hb. unfold div. apply is_zero_true in Ha, Hb. now rewrite Ha, Hb.
Qed.

(** The sum of finite numbers is finite and is their sum. *)
Lemma fold_add_value (qs : list Q) (acc : Q) :
  exists t, fold_left add (map Fin qs) (Fin acc) = Fin t
            /\ t == acc + fold_right Qplus 0%Q qs.
Proof.
  revert acc. induction qs as [| q qs IH]; intro acc.
  - exists acc. split; [reflexivity | simpl; ring].
  - destruct (IH (Qred (acc + q))) as [t [Ht Hv]].
    exists t. split; [exact Ht |].
    rewrite Hv, Qred_correct. simpl. ring.
Qed.

Lemma sum_value (qs : list Q) :
  exists t, sum (map Fin qs) = Fin t /\ t == fold_right Qplus 0%Q qs.
Proof.
  destruct (fold_add_value qs 0) as [t [Ht Hv]].
  exists t. split; [exact Ht |]. rewrite Hv. ring.
Qed.

(** [Math.round] of a finite number is the nearest integer. *)
Lemma round_nearest (x : Q) :
  exists z : Z, round (Fin x) = of_Z z
                /\ (inject_Z z <= x + (1 # 2) /\ x + (1 # 2) < inject_Z z + 1)%Q.
Proof.
  exists (Qfloor (x + (1 # 2))). split; [reflexivity | split].
  - apply Qfloor_le.
  - pose proof (Qlt_floor (x + (1 # 2))) as H.
    rewrite inject_Z_plus in H. exact H.
Qed.

End NumberFacts.

(** *** Jitter on the server *)

Section Jitter.

Import JS.

Import Examples.

Lemma strict_eq_zero_false (p : Q) : nonzero p -> strict_eq (Fin p) (Fin 0) = false.
Proof. intro Hp. apply is_zero_false in Hp. exact Hp. Qed.

(** After a latency that is not zero, the jitter of the next one is
    its distance from it. *)
Lemma calculateJitter_next (a p : Q) :
  nonzero p ->
  Server.calculateJitter (Fin a) (Fin p)
  = (abs (sub (Fin a) (Fin p)), Fin a).
Proof.
  intro Hp. unfold Server.calculateJitter.
  now rewrite (strict_eq_zero_false Hp).
Qed.

(** The first latency (while [lastLatency] is still [0]) has jitter 0. *)
Lemma calculateJitter_first (a : JS.number) :
  Server.calculateJitter a (Fin 0) = (Fin 0, a).
Proof. reflexivity. Qed.

Lemma jitters_from (rtts : list Q) :
  forall p, nonzero p -> Forall nonzero rtts ->
  Forall2 is_value (Server.jitters (map Fin rtts) (Fin p))
          (Spec.consecutive_differences (p :: rtts)).
Proof.
  induction rtts as [| a rest IH]; intros p Hp Hall.
  - constructor.
  - inversion Hall as [| ? ? Ha Hrest]; subst.
    cbn [map Server.jitters]. rewrite (calculateJitter_next a Hp).
    change (Spec.consecutive_differences (p :: a :: rest))
      with (Qabs (a - p) :: Spec.consecutive_differences (a :: rest)).
    constructor.
    + apply abs_sub_value.
    + apply IH; assumption.
Qed.

Lemma jitters_constant (c : Q) (n : nat) :
  forall last, last = Fin c \/ last = Fin 0 ->
  Forall (fun j => is_value j 0) (Server.jitters (repeat (Fin c) n) last).
Proof.
  induction n as [| n IH]; intros last Hlast.
  - constructor.
  - cbn [repeat Server.jitters].
    destruct Hlast as [-> | ->].
    + unfold Server.calculateJitter.
      destruct (strict_eq (Fin c) (Fin 0)).
      * constructor; [reflexivity | apply IH; now left].
      * constructor; [| apply IH; now left].
        unfold sub, abs, is_value. rewrite !Qred_correct.
        assert (H : c - c == 0) by ring. now rewrite H.
    + rewrite calculateJitter_first.
      constructor; [reflexivity | apply IH; now left].
Qed.

(** C1, as the server computes it.  [calculateJitter] returns, for each
    latency, its absolute difference from the previous one, and 0 for
    the first: on a series of non-zero latencies the jitters are 0
    followed by the consecutive absolute differences; on a constant
    series every jitter is 0; on 40, 60, 50, 70 they are 0, 20, 10, 20.
    The mean of the differences is not computed. *)
Theorem jitter_consecutive_difference (rtts : list Q)
  (Hnz : Forall nonzero rtts) :
  Forall2 is_value (Server.jitters (map Fin rtts) (Fin 0))
          (match rtts with
           | [] => []
           | _ :: _ => 0%Q :: Spec.consecutive_differences rtts
           end)
  /\ (forall (c : Q) (n : nat),
        Forall (fun j => is_value j 0)
               (Server.jitters (repeat (Fin c) n) (Fin 0)))
  /\ Server.jitters (map of_Z [40; 60; 50; 70]) (Fin 0)
     = [Fin 0; Fin 20; Fin 10; Fin 20].
Proof.
  split; [| split].
  - destruct rtts as [| a rest]; [constructor |].
    inversion Hnz as [| ? ? Ha Hrest]; subst.
    cbn [map Server.jitters]. rewrite calculateJitter_first.
    constructor; [reflexivity |].
    apply jitters_from; assumption.
  - intros c n. apply jitters_constant. now right.
  - reflexivity.
Qed.

Lemma jitter_consecutive_difference_witness :
  Forall2 is_value
    (Server.jitters (map Fin [40; 60; 50; 70]%Q) (Fin 0))
    [0; 20; 10; 20]%Q.
Proof.
  apply (proj1 (@jitter_consecutive_difference [40; 60; 50; 70]%Q
    ltac:(repeat constructor; intro H; discriminate H))).
Defined.

(** C1 as stated fails: on 40, 60, 50, 70 the mean absolute difference
    is 50/3, and no jitter the server computes has that value. *)
Lemma jitter_mean_not_computed :
  (exists m, Spec.mean_absolute_difference [40; 60; 50; 70]%Q = Some m
             /\ m == 50 # 3)
  /\ forall j, In j (Server.jitters (map of_Z [40; 60; 50; 70]) (Fin 0)) ->
               ~ is_value j (50 # 3).
Proof.
  split.
  - eexists. split; reflexivity.
  - intros j Hj.
    change (Server.jitters (map of_Z [40; 60; 50; 70]) (Fin 0))
      with [Fin 0; Fin 20; Fin 10; Fin 20] in Hj.
    simpl in Hj.
    destruct Hj as [<- | [<- | [<- | [<- | []]]]]; intro H; discriminate H.
Qed.

End Jitter.

(** *** Rates and the shown latency *)

Section Rates.

Import JS.

Lemma milliseconds_nonzero (elapsed : Z) :
  elapsed <> 0 -> ~ Qred (inject_Z elapsed / 1000) == 0.
Proof.
  intros Hne H. rewrite Qred_correct in H. apply Hne.
  unfold Qeq, Qdiv, Qmult, Qinv, inject_Z in H. simpl in H. lia.
Qed.

Lemma seconds_Fin (elapsed : Z) :
  div (of_Z elapsed) (Fin 1000) = Fin (Qred (inject_Z elapsed / 1000)).
Proof. unfold of_Z. apply div_Fin. intro H. discriminate H. Qed.

Lemma bits_Fin (bytes : Z) :
  mul (of_Z bytes) (Fin 8) = Fin (Qred (inject_Z bytes * 8)).
Proof. reflexivity. Qed.

(** The client's rate is the server's expression on the time since the
    transfer began. *)
Lemma rate_mbps (x : Client.transfer) (now : Z) :
  Client.rate x now
  = Server.mbps (Client.totalBytes x) (now - Client.startTime x).
Proof. reflexivity. Qed.

(** With time elapsed, the expression is the quotient it is written as. *)
Lemma mbps_value (bytes elapsed : Z) :
  elapsed <> 0 ->
  is_value (Server.mbps bytes elapsed)
           (inject_Z bytes * 8 / (inject_Z elapsed / 1000) / 1000000).
Proof.
  intro Hne. unfold Server.mbps.
  rewrite bits_Fin, seconds_Fin.
  rewrite (div_Fin _ (milliseconds_nonzero Hne)).
  rewrite div_Fin by (intro H; discriminate H).
  unfold is_value. now rewrite !Qred_correct.
Qed.


Lemma mbps_zero_elapsed_nan : Server.mbps 0 0 = NaN.
Proof. reflexivity. Qed.




End Rates.

Section RateExamples.

Import JS Examples.



End RateExamples.

(** *** The final rate of the download test *)

Section FinalRate.

Import JS Examples.

(** C4, as the code computes it.  When the download test finishes, the
    rate shown is [8 * totalBytes / seconds / 1000000] with [seconds]
    the whole time since the test began; for 10 MiB in 8 s it is
    10.48576. *)
Theorem final_rate_whole_window (e : Client.env) (x : Client.transfer)
  (s : Client.session)
  (Hfin : Client.finished Client.download_chunks s x = true)
  (Hne : Client.clock e <> Client.startTime x) :
  (exists q,
      In (Client.TextContent "downloadSpeed" (Client.Fixed1 (Fin q)))
         (snd (Client.download_tick e x s))
      /\ q == inject_Z (Client.totalBytes x) * 8
              / (inject_Z (Client.clock e - Client.startTime x) / 1000)
              / 1000000)
  /\ is_value (Client.rate ten_MiB 8000) 10.48576.
Proof.
  split.
  - assert (Hel : Client.clock e - Client.startTime x <> 0) by lia.
    pose proof (mbps_value (Client.totalBytes x) Hel) as Hv.
    unfold Client.download_tick. rewrite Hfin, rate_mbps.
    destruct (Server.mbps _ _) as [q | | |]; try contradiction.
    exists q. split; [| exact Hv].
    simpl. right. left. reflexivity.
  - reflexivity.
Qed.

Lemma final_rate_whole_window_witness :
  exists q,
    In (Client.TextContent "downloadSpeed" (Client.Fixed1 (Fin q)))
       (snd (Client.download_tick (client_at 8000) ten_MiB
               (downloading false ten_MiB)))
    /\ q == inject_Z (10 * 1024 * 1024) * 8 / (inject_Z (8000 - 0) / 1000)
            / 1000000.
Proof.
  apply (proj1 (@final_rate_whole_window (client_at 8000) ten_MiB
                  (downloading false ten_MiB) eq_refl
                  ltac:(discriminate))).
Defined.

(** C4 as stated fails: for 10 MiB in 8 s the final rate is 10.48576,
    more than 2.6 below the 13.1072 of the trailing 80% window. *)
Lemma final_rate_not_trailing_window :
  exists q,
    In (Client.TextContent "downloadSpeed" (Client.Fixed1 (Fin q)))
       (snd (Client.download_tick (client_at 8000) ten_MiB
               (downloading false ten_MiB)))
    /\ q == 10.48576
    /\ (8 * 10 * 1024 * 1024 / (8 * 0.8) / 1000000 == 13.1072)%Q
    /\ (q + 2.6 < 13.1072)%Q.
Proof.
  exists (32768 # 3125)%Q. repeat split.
  simpl. right. left. reflexivity.
Qed.

End FinalRate.

(** *** The latency shown *)

Section ShownLatency.

Import JS Examples Notions.

Lemma mean_value (rtts : list Q) :
  rtts <> [] ->
  exists y, Client.mean (map Fin rtts) = Fin y
            /\ y == fold_right Qplus 0%Q rtts
                    / inject_Z (Z.of_nat (List.length rtts)).
Proof.
  intro Hne. unfold Client.mean.
  destruct (sum_value rtts) as [t [Ht Hv]].
  rewrite Ht, length_map. unfold of_Z.
  assert (Hn : ~ inject_Z (Z.of_nat (List.length rtts)) == 0).
  { intro H. destruct rtts as [| a rest]; [now apply Hne |].
    unfold Qeq, inject_Z in H. simpl in H. lia. }
  rewrite (div_Fin _ Hn). eexists. split; [reflexivity |].
  now rewrite Qred_correct, Hv.
Qed.








End ShownLatency.

(** *** Starting while a test runs *)

Section SingleFlight.

Import JS Examples.

(** C3, as the code behaves.  While [testInProgress] is set, a call of
    the start method returns at once: the promise is fulfilled, not
    rejected, nothing is shown, sent or scheduled, and the session is
    what it was. *)
Theorem start_while_running_returns (e : Client.env) (s : Client.session)
  (t : Simple.state)
  (Hs : Client.testInProgress s = true)
  (Ht : Simple.testInProgress t = true) :
  Client.startFullTest e s = (s, [], Fulfilled)
  /\ Client.step e Client.Click s = Some (s, [])
  /\ Simple.startSpeedTest t = (t, Fulfilled)
  /\ Simple.step Simple.Click t = t.
Proof.
  assert (H1 : Client.startFullTest e s = (s, [], Fulfilled)).
  { unfold Client.startFullTest. now rewrite Hs. }
  assert (H2 : Simple.startSpeedTest t = (t, Fulfilled)).
  { unfold Simple.startSpeedTest. now rewrite Ht. }
  repeat split.
  - exact H1.
  - unfold Client.step. now rewrite H1.
  - exact H2.
  - unfold Simple.step. now rewrite H2.
Qed.

(** The events of [ten_chunks] lead from the initial session into the
    download test, ten chunks counted. *)
Lemma reached_download :
  Client.run ten_chunks Client.initial = Some reached
  /\ Client.testInProgress reached = true
  /\ Client.currentTest reached = Some "download"
  /\ exists rates,
       Client.pending reached
       = Client.AwaitDownload
           {| Client.totalBytes := 10 * 1024 * 1024;
              Client.startTime := 1000;
              Client.speeds := rates;
              Client.chunk := 10 |}
       /\ List.length rates = 10%nat.
Proof.
  split; [vm_compute; reflexivity |].
  split; [vm_compute; reflexivity |].
  split; [vm_compute; reflexivity |].
  eexists. split; vm_compute; reflexivity.
Qed.

Lemma start_while_running_returns_witness :
  Client.startFullTest (client_at 2005) reached = (reached, [], Fulfilled)
  /\ Simple.startSpeedTest simple_running = (simple_running, Fulfilled).
Proof.
  pose proof (@start_while_running_returns (client_at 2005)
                reached simple_running
                ltac:(vm_compute; reflexivity) eq_refl) as H.
  split; [apply H | apply (proj2 (proj2 H))].
Defined.

(** C3 as stated fails: started during a download test, the method
    does not reject: its promise is fulfilled, and no reason is given. *)
Lemma start_while_running_not_rejected :
  snd (Client.startFullTest (client_at 2005) reached) = Fulfilled
  /\ snd (Simple.startSpeedTest simple_running) = Fulfilled
  /\ forall reason,
       snd (Client.startFullTest (client_at 2005) reached)
       <> Rejected reason.
Proof.
  assert (H : snd (Client.startFullTest (client_at 2005) reached) = Fulfilled)
    by (vm_compute; reflexivity).
  split; [exact H |]. split; [reflexivity |].
  intros reason Hr. rewrite H in Hr. discriminate Hr.
Qed.

End SingleFlight.

(** *** Control messages *)

Section Control.

Import JS Examples.

Variable S2N : string -> JS.number.

(** C6, as the server answers.  A [ping] is answered by one [pong] that
    carries the ping's [timestamp] member unchanged, if it has one, and
    nothing else of the ping; the connection's state is untouched. *)
Theorem ping_echoes_timestamp (e : Server.env)
  (members : list (string * json)) (s : Server.state)
  (Hping : assoc "type" members = Some (JStr "ping")) :
  Server.on_message S2N e (Text (Some (JObj members))) s
  = Some (s, [SendJSON
                (JObj (("type", JStr "pong")
                       :: match assoc "timestamp" members with
                          | Some ts => [("timestamp", ts)]
                          | None => []
                          end))]).
Proof.
  unfold Server.on_message, Server.on_control, member. rewrite Hping.
  cbn [String.eqb Ascii.eqb Bool.eqb].
  unfold Server.pong, member.
  destruct (assoc "timestamp" members); reflexivity.
Qed.

(** C9.  A binary message that arrives while no upload test was started
    is dropped: nothing is sent and the state is what it was. *)
Theorem binary_before_upload_dropped (e : Server.env)
  (payload : list Byte.byte) (s : Server.state)
  (Hunset : Server.uploadStartTime s = None) :
  Server.on_message S2N e (Binary payload) s = Some (s, []).
Proof.
  unfold Server.on_message, Server.on_binary, Server.started.
  now rewrite Hunset.
Qed.

(** Pass every [case] whose label is known to differ from the tag. *)
Ltac skip_cases H :=
  repeat (let Hcase := fresh "Hcase" in
          apply Forall_cons_iff in H; destruct H as [Hcase H];
          rewrite Hcase; clear Hcase).

Lemma unmatched_tag (tag : string) (labels : list string) :
  (forall l, In l labels -> Some (JStr tag) <> Some (JStr l)) ->
  Forall (fun l => String.eqb tag l = false) labels.
Proof.
  intro H. apply Forall_forall. intros l Hl.
  apply String.eqb_neq. intro Heq. apply (H l Hl). now rewrite Heq.
Qed.

(** C7, as the handlers behave.  A control message whose [type] is none
    of the labels of the handler's [switch] matches no case: the server
    sends nothing and keeps its state, the client calls no method; no
    error is raised. *)
Theorem unrecognised_tag_ignored (e : Server.env) (data : json)
  (s : Server.state) (tag : option json)
  (Htype : member data "type" = Normal tag) :
  ((forall l, In l Server.recognised -> tag <> Some (JStr l)) ->
   Server.on_message S2N e (Text (Some data)) s = Some (s, []))
  /\ ((forall l, In l Client.recognised -> tag <> Some (JStr l)) ->
      Client.handleWebSocketMessage (Text (Some data)) = Client.Ignored).
Proof.
  split; intro Hnone.
  - unfold Server.on_message, Server.on_control. rewrite Htype.
    destruct tag as [[| b | q | t | items | members] |]; try reflexivity.
    pose proof (@unmatched_tag t _ Hnone) as Hall.
    skip_cases Hall.
    reflexivity.
  - unfold Client.handleWebSocketMessage. rewrite Htype.
    destruct tag as [[| b | q | t | items | members] |]; try reflexivity.
    pose proof (@unmatched_tag t _ Hnone) as Hall.
    skip_cases Hall.
    reflexivity.
Qed.

End Control.

Section ControlExamples.

Import JS Examples.

Lemma ping_echoes_timestamp_witness :
  Server.on_message no_number (at_time 2000) (Text (Some ping_timestamp)) fresh
  = Some (fresh, [SendJSON (JObj [ ("type", JStr "pong");
                                   ("timestamp", JNum 1000) ])]).
Proof.
  apply (@ping_echoes_timestamp no_number (at_time 2000)
           [ ("type", JStr "ping"); ("timestamp", JNum 1000) ] fresh).
  reflexivity.
Defined.

(** C6 as stated fails: the answer to a ping with [seq] and [sendTime]
    has neither member. *)
Lemma ping_seq_not_echoed :
  exists reply,
    Server.on_message no_number (at_time 2000) (Text (Some ping_seq)) fresh
    = Some (fresh, [reply])
    /\ reply = SendJSON (JObj [ ("type", JStr "pong") ])
    /\ Server.sent_member "seq" reply = None
    /\ Server.sent_member "sendTime" reply = None.
Proof. eexists. repeat split. Qed.

Lemma binary_before_upload_dropped_witness :
  Server.on_message no_number (at_time 2000)
    (Binary [Byte.x00; Byte.x01; Byte.x02]) fresh
  = Some (fresh, []).
Proof.
  apply (@binary_before_upload_dropped no_number (at_time 2000)
           [Byte.x00; Byte.x01; Byte.x02] fresh).
  reflexivity.
Defined.

Lemma bogus_unrecognised (labels : list string) :
  forallb (fun l => negb (String.eqb "bogus" l)) labels = true ->
  forall l, In l labels -> Some (JStr "bogus") <> Some (JStr l).
Proof.
  intros Hall l Hl Heq. injection Heq as <-.
  rewrite forallb_forall in Hall. specialize (Hall _ Hl).
  now rewrite String.eqb_refl in Hall.
Qed.

Lemma unrecognised_tag_ignored_witness :
  Server.on_message no_number (at_time 2000) (Text (Some bogus)) fresh
  = Some (fresh, [])
  /\ Client.handleWebSocketMessage (Text (Some bogus)) = Client.Ignored.
Proof.
  pose proof (@unrecognised_tag_ignored no_number (at_time 2000) bogus fresh
                (Some (JStr "bogus")) eq_refl) as [Hserver Hclient].
  split.
  - apply Hserver. apply bogus_unrecognised. reflexivity.
  - apply Hclient. apply bogus_unrecognised. reflexivity.
Defined.

(** C7 as stated fails: a message of type [bogus] raises nothing.  The
    server answers with no frame, not even its [error] message, and the
    client calls no method. *)
Lemma bogus_raises_nothing :
  Server.on_message no_number (at_time 2000) (Text (Some bogus)) fresh
  = Some (fresh, [])
  /\ ~ In (SendJSON Server.error_message)
          (match Server.on_message no_number (at_time 2000)
                   (Text (Some bogus)) fresh with
           | Some (_, frames) => frames
           | None => []
           end)
  /\ Client.handleWebSocketMessage (Text (Some bogus)) = Client.Ignored.
Proof. repeat split. intros []. Qed.

End ControlExamples.

(** *** Clearing the flag during the download test *)

Section Cancellation.

Import JS Examples.

(** C8, as the client behaves.  When [testInProgress] is found cleared
    by the interval callback of the download test, that very call
    clears the interval and counts no further chunk, stores the rates
    collected so far as the result of the test and resolves its
    promise; [startFullTest] then enters the upload test, whose
    interval callback will find its stop test true at its first call.
    The flag stays cleared; there is no cancelled state. *)
Theorem cleared_flag_ends_download (e : Client.env) (x : Client.transfer)
  (s : Client.session)
  (Hpending : Client.pending s = Client.AwaitDownload x)
  (Hflag : Client.testInProgress s = false) :
  exists s' rest,
    Client.step e Client.DownloadTimer s
    = Some (s', Client.ClearInterval :: rest)
    /\ Client.download (Client.results s') = Client.speeds x
    /\ Client.pending s' = Client.AwaitUpload (Client.fresh_transfer (Client.clock' e))
    /\ Client.currentTest s' = Some "upload"
    /\ In (Client.SetInterval 100) rest
    /\ Client.finished Client.upload_chunks s'
         (Client.fresh_transfer (Client.clock' e)) = true
    /\ Client.testInProgress s' = false.
Proof.
  unfold Client.step. rewrite Hpending.
  unfold Client.download_tick, Client.finished. rewrite Hflag.
  rewrite orb_true_r.
  eexists. eexists. split; [reflexivity |].
  cbn. repeat split. tauto.
Qed.

Lemma cleared_flag_ends_download_witness :
  exists s' rest,
    Client.step (client_at 2100) Client.DownloadTimer
      (downloading false ten_MiB)
    = Some (s', Client.ClearInterval :: rest)
    /\ Client.download (Client.results s') = Client.speeds ten_MiB
    /\ Client.pending s' = Client.AwaitUpload (Client.fresh_transfer 2100)
    /\ Client.currentTest s' = Some "upload"
    /\ In (Client.SetInterval 100) rest
    /\ Client.finished Client.upload_chunks s'
         (Client.fresh_transfer 2100) = true
    /\ Client.testInProgress s' = false.
Proof.
  apply (@cleared_flag_ends_download (client_at 2100) ten_MiB
           (downloading false ten_MiB) eq_refl eq_refl).
Defined.

(** C8 as stated fails: with the flag cleared after the ten chunks of
    [reached], the callback's next call leaves the session in the
    upload test, a downstream phase. *)
Lemma cleared_flag_enters_upload :
  exists s' effects,
    Client.step (client_at 2100) Client.DownloadTimer (cleared reached)
    = Some (s', effects)
    /\ Client.currentTest s' = Some "upload"
    /\ Client.pending s' = Client.AwaitUpload (Client.fresh_transfer 2100)
    /\ In (Client.UpdateProgress "Testing upload speed..." (Fin 60)) effects.
Proof.
  eexists. eexists. split; [vm_compute; reflexivity |].
  repeat split. vm_compute. tauto.
Qed.

End Cancellation.

(* ================================================================== *)
(** ** Further properties of the server *)
(* ================================================================== *)

(** *** Addresses *)

Section Addresses.

Import JS Notions.

Lemma split_dot_piece (p s : string) :
  dot_free p = true ->
  Server.split_dot (p ++ String "." s) = p :: Server.split_dot s.
Proof.
  induction p as [| c r IH]; intro Hfree.
  - reflexivity.
  - cbn [dot_free] in Hfree. apply andb_prop in Hfree as [Hc Hr].
    cbn [String.append Server.split_dot].
    apply negb_true_iff in Hc. rewrite Hc, (IH Hr). reflexivity.
Qed.

Lemma split_dot_free (p : string) :
  dot_free p = true -> Server.split_dot p = [p].
Proof.
  induction p as [| c r IH]; intro Hfree.
  - reflexivity.
  - cbn [dot_free] in Hfree. apply andb_prop in Hfree as [Hc Hr].
    cbn [Server.split_dot].
    apply negb_true_iff in Hc. rewrite Hc, (IH Hr). reflexivity.
Qed.

Lemma split_dot_pieces (pieces : list string) :
  pieces <> [] ->
  Forall (fun p => dot_free p = true) pieces ->
  Server.split_dot (join_dot pieces) = pieces.
Proof.
  intros Hsome Hfree.
  induction pieces as [| p rest IH]; [contradiction |].
  inversion Hfree as [| ? ? Hp Hrest]; subst.
  destruct rest as [| q rest'].
  - cbn [join_dot]. now apply split_dot_free.
  - change (join_dot (p :: q :: rest'))
      with (p ++ String "." (join_dot (q :: rest')))%string.
    rewrite (@split_dot_piece p _ Hp). f_equal.
    apply IH; [discriminate | assumption].
Qed.

(** X1.  Splitting at the dots undoes writing with dots: the pieces of
    [join_dot pieces] are [pieces], when there is a piece and no piece
    has a dot. *)
Theorem split_dot_join (pieces : list string)
  (Hsome : pieces <> [])
  (Hfree : Forall (fun p => dot_free p = true) pieces) :
  Server.split_dot (join_dot pieces) = pieces.
Proof.
  induction pieces as [| p rest IH]; [contradiction |].
  inversion Hfree as [| ? ? Hp Hrest]; subst.
  destruct rest as [| q rest'].
  - cbn [join_dot]. now apply split_dot_free.
  - change (join_dot (p :: q :: rest'))
      with (p ++ String "." (join_dot (q :: rest')))%string.
    rewrite (@split_dot_piece p _ Hp). f_equal.
    apply IH; [discriminate | assumption].
Qed.

Lemma split_dot_join_witness :
  Server.split_dot (join_dot ["192"; "168"; ""; "x"]) = ["192"; "168"; ""; "x"].
Proof.
  apply split_dot_join; [discriminate | repeat constructor].
Defined.

Lemma digit_value_char (d : nat) :
  (d < 10)%nat -> Server.digit_value 10 (digit_char d) = Some (Z.of_nat d).
Proof.
  intro Hd. do 10 (destruct d as [| d]; [reflexivity |]). lia.
Qed.

Lemma digits_horner (ds : list nat) :
  Forall (fun d => (d < 10)%nat) ds ->
  forall a,
    Server.digits 10 (string_of_list_ascii (map digit_char ds)) (Some a)
    = Some (horner a ds).
Proof.
  induction 1 as [| d ds Hd Hds IH]; intro a.
  - reflexivity.
  - cbn [map string_of_list_ascii Server.digits].
    rewrite (digit_value_char Hd). apply IH.
Qed.

Lemma parseInt_digits (d : nat) (ds : list nat) :
  (d < 10)%nat -> Forall (fun d => (d < 10)%nat) ds ->
  Server.parseInt (string_of_list_ascii (map digit_char (d :: ds)))
  = Server.to_double (horner (Z.of_nat d) ds).
Proof.
  intros Hd Hds.
  assert (Hgo : forall rest,
             Server.digits 10 (String (digit_char d) rest) None
             = Server.digits 10 rest (Some (Z.of_nat d))).
  { intro rest. cbn [Server.digits]. now rewrite (digit_value_char Hd). }
  assert (Hend : match Server.digits 10
                         (string_of_list_ascii (map digit_char (d :: ds)))
                         None with
                 | Some mathInt => Server.to_double (1 * mathInt)
                 | None => Server.NotANumber
                 end
                 = Server.to_double (horner (Z.of_nat d) ds)).
  { cbn [map string_of_list_ascii]. rewrite Hgo, (digits_horner Hds).
    f_equal. lia. }
  rewrite <- Hend. clear Hgo Hend.
  destruct d as [| d].
  - (* a leading 0: the next character is a digit, not an x *)
    destruct ds as [| d2 ds']; [reflexivity |].
    inversion Hds as [| ? ? Hd2 _]; subst.
    do 10 (destruct d2 as [| d2]; [reflexivity |]). lia.
  - do 9 (destruct d as [| d]; [reflexivity |]). lia.
Qed.

Lemma horner_rev (l : list nat) :
  horner 0 (rev l) = Z.of_nat (lsd_value l).
Proof.
  induction l as [| d l IH]; [reflexivity |].
  cbn [rev lsd_value fold_right]. unfold horner in *.
  rewrite fold_left_app, IH. cbn [fold_left]. fold (lsd_value l). lia.
Qed.

Lemma decimal_rev_spec (fuel : nat) :
  forall n, (n < fuel)%nat ->
  lsd_value (decimal_rev fuel n) = n
  /\ Forall (fun d => (d < 10)%nat) (decimal_rev fuel n).
Proof.
  induction fuel as [| fuel IH]; intros n Hn; [lia |].
  cbn [decimal_rev].
  assert (Hmod : (n mod 10 < 10)%nat) by (apply Nat.mod_upper_bound; lia).
  destruct (Nat.ltb_spec n 10) as [Hlt | Hge].
  - split; [| constructor; [exact Hmod | constructor]].
    cbn [lsd_value fold_right]. rewrite Nat.mod_small by exact Hlt. lia.
  - assert (Hdiv : (n / 10 < fuel)%nat).
    { apply Nat.Div0.div_lt_upper_bound. lia. }
    destruct (IH _ Hdiv) as [Hval Hall]. split.
    + cbn [lsd_value fold_right]. fold (lsd_value (decimal_rev fuel (n / 10))).
      rewrite Hval. pose proof (Nat.div_mod_eq n 10). lia.
    + constructor; assumption.
Qed.

Lemma decimal_digits (n : nat) :
  exists d ds,
    rev (decimal_rev (S n) n) = d :: ds
    /\ (d < 10)%nat /\ Forall (fun d => (d < 10)%nat) ds
    /\ horner (Z.of_nat d) ds = Z.of_nat n.
Proof.
  destruct (@decimal_rev_spec (S n) n ltac:(lia)) as [Hval Hall].
  pose proof (horner_rev (decimal_rev (S n) n)) as Hh. rewrite Hval in Hh.
  apply Forall_rev in Hall.
  destruct (rev (decimal_rev (S n) n)) as [| d ds] eqn:Hrev.
  - apply (f_equal (@List.length nat)) in Hrev.
    rewrite length_rev in Hrev. cbn in Hrev. discriminate.
  - inversion Hall; subst. exists d, ds. repeat split; try assumption.
Qed.

Lemma parseInt_decimal_text (n : nat) :
  Server.parseInt (decimal n) = Server.to_double (Z.of_nat n).
Proof.
  unfold decimal.
  destruct (decimal_digits n) as [d [ds [Hrev [Hd [Hds Hval]]]]].
  rewrite Hrev, (parseInt_digits Hd Hds). now rewrite Hval.
Qed.

(** An integer below 2^53 in magnitude is a double. *)
Lemma to_double_exact (z : Z) :
  Z.abs z < 2 ^ 53 -> Server.to_double z = Server.Integer z.
Proof.
  intro Hz. unfold Server.to_double.
  destruct (Z.ltb_spec (Z.abs z) (2 ^ 53)) as [_ | Hge]; [reflexivity | lia].
Qed.

(** X2.  [parseInt] reads the decimal text of a natural number as the
    double nearest to it: a number below 2^53 is read back as it is;
    2^53 + 1, the first one no double holds, becomes 2^53, and 10^309
    becomes an infinity. *)
Theorem parseInt_decimal (n : nat) :
  Server.parseInt (decimal n) = Server.to_double (Z.of_nat n)
  /\ (Z.of_nat n < 2 ^ 53 ->
      Server.parseInt (decimal n) = Server.Integer (Z.of_nat n))
  /\ Server.to_double (2 ^ 53 + 1) = Server.Integer (2 ^ 53)
  /\ Server.to_double (10 ^ 309) = Server.Infinite false.
Proof.
  assert (Hread : Server.parseInt (decimal n)
                  = Server.to_double (Z.of_nat n)).
  { unfold decimal.
    destruct (decimal_digits n) as [d [ds [Hrev [Hd [Hds Hval]]]]].
    rewrite Hrev. rewrite (parseInt_digits Hd Hds).
    f_equal. exact Hval. }
  split; [exact Hread |]. split; [| split; [reflexivity |]].
  - intro Hsmall. rewrite Hread. apply to_double_exact. lia.
  - vm_compute. reflexivity.
Qed.

Lemma parseInt_decimal_witness :
  Server.parseInt (decimal 255) = Server.Integer 255.
Proof.
  apply (proj1 (proj2 (parseInt_decimal 255))). reflexivity.
Defined.

Lemma digit_char_no_dot (d : nat) :
  (d < 10)%nat -> Ascii.eqb (digit_char d) "." = false.
Proof.
  intro Hd. do 10 (destruct d as [| d]; [reflexivity |]). lia.
Qed.

Lemma dot_free_decimal (n : nat) : dot_free (decimal n) = true.
Proof.
  unfold decimal.
  destruct (@decimal_rev_spec (S n) n ltac:(lia)) as [_ Hall].
  apply Forall_rev in Hall.
  induction Hall as [| d ds Hd Hds IH]; [reflexivity |].
  cbn [map string_of_list_ascii dot_free].
  now rewrite (digit_char_no_dot Hd), IH.
Qed.

(** The [reduce] over pieces that are decimal numbers, as long as the
    sum stays below 2^53: every step is exact. *)
Lemma hash_of_decimals (octets : list nat) :
  forall a,
    0 <= a ->
    a + Z.of_nat (list_sum octets) < 2 ^ 53 ->
    fold_left (fun acc octet => Server.plus acc (Server.parseInt octet))
              (map decimal octets) (Server.Integer a)
    = Server.Integer (a + Z.of_nat (list_sum octets)).
Proof.
  induction octets as [| o rest IH]; intros a Ha Hsum.
  - cbn. f_equal. lia.
  - change (list_sum (o :: rest)) with (o + list_sum rest)%nat in *.
    cbn [map fold_left]. rewrite parseInt_decimal_text.
    rewrite (@to_double_exact (Z.of_nat o)) by lia.
    cbn [Server.plus]. rewrite to_double_exact by lia.
    rewrite IH by lia. f_equal. lia.
Qed.

Lemma plus_NaN_r (a : Server.integral) :
  Server.plus a Server.NotANumber = Server.NotANumber.
Proof. now destruct a. Qed.

Lemma hash_absorbs (pieces : list string) :
  fold_left (fun acc octet => Server.plus acc (Server.parseInt octet))
            pieces Server.NotANumber
  = Server.NotANumber.
Proof. induction pieces as [| p rest IH]; [reflexivity | exact IH]. Qed.

Lemma hash_of_bad_piece (pieces : list string) (piece : string) :
  In piece pieces -> Server.parseInt piece = Server.NotANumber ->
  forall acc,
    fold_left (fun acc octet => Server.plus acc (Server.parseInt octet))
              pieces acc
    = Server.NotANumber.
Proof.
  intros Hin Hbad. induction pieces as [| p rest IH]; [contradiction |].
  intro acc. cbn [fold_left]. destruct Hin as [-> | Hin].
  - rewrite Hbad, plus_NaN_r. apply hash_absorbs.
  - apply IH. exact Hin.
Qed.

Lemma location_in_range (r : Z) :
  0 <= r < 8 -> exists l, nth_error Server.locations (Z.to_nat r) = Some l.
Proof.
  intro Hr.
  assert (Hcases : r = 0 \/ r = 1 \/ r = 2 \/ r = 3
                   \/ r = 4 \/ r = 5 \/ r = 6 \/ r = 7) by lia.
  destruct Hcases as [-> | [-> | [-> | [-> | [-> | [-> | [-> | ->]]]]]]];
    eexists; reflexivity.
Qed.

(** The location of a dotted decimal address. *)
Lemma location_of_dotted (octets : list nat) :
  octets <> [] ->
  Z.of_nat (list_sum octets) < 2 ^ 53 ->
  Server.getServerLocation (dotted octets)
  = nth_error Server.locations (Nat.modulo (list_sum octets) 8).
Proof.
  intros Hsome Hsmall.
  assert (Hhash : Server.ip_hash (dotted octets)
                  = Server.Integer (Z.of_nat (list_sum octets))).
  { unfold Server.ip_hash, dotted. rewrite split_dot_pieces.
    - rewrite hash_of_decimals by lia. f_equal.
    - destruct octets; [contradiction | discriminate].
    - apply Forall_forall. intros p Hp. apply in_map_iff in Hp.
      destruct Hp as [o [<- _]]. apply dot_free_decimal. }
  assert (Hrem : Z.rem (Z.of_nat (list_sum octets)) 8
                 = Z.of_nat (Nat.modulo (list_sum octets) 8)).
  { rewrite Z.rem_mod_nonneg by lia.
    change 8 with (Z.of_nat 8). now rewrite <- Nat2Z.inj_mod. }
  unfold Server.getServerLocation. rewrite Hhash.
  change (Z.of_nat (List.length Server.locations)) with 8.
  rewrite Hrem.
  destruct (Z.ltb_spec (Z.of_nat (Nat.modulo (list_sum octets) 8)) 0);
    [lia |].
  now rewrite Nat2Z.id.
Qed.

(** X3.  A connection from a dotted decimal address whose numbers add
    up to less than 2^53, such as every IPv4 address, is always
    served: the location is the one at index (sum of the numbers) mod
    8 of the table, and the listener sends the [server-info] message
    for it and starts with no upload running. *)
Theorem connection_from_dotted (octets : list nat) (now : Z)
  (last : JS.number) (Hsome : octets <> [])
  (Hsmall : Z.of_nat (list_sum octets) < 2 ^ 53) :
  exists l,
    nth_error Server.locations (Nat.modulo (list_sum octets) 8) = Some l
    /\ Server.getServerLocation (dotted octets) = Some l
    /\ Server.on_connection (dotted octets) now last
       = Normal ([SendJSON (Server.server_info l now)],
                 {| Server.uploadData := [];
                    Server.uploadStartTime := None;
                    Server.totalUploadBytes := 0;
                    Server.lastLatency := last |}).
Proof.
  pose proof (@location_of_dotted octets Hsome Hsmall) as Hget.
  destruct (@location_in_range (Z.of_nat (Nat.modulo (list_sum octets) 8)))
    as [l Hl].
  { pose proof (Nat.mod_upper_bound (list_sum octets) 8). lia. }
  rewrite Nat2Z.id in Hl.
  exists l. split; [exact Hl |]. split; [now rewrite Hget |].
  unfold Server.on_connection. now rewrite Hget, Hl.
Qed.

Lemma connection_from_dotted_witness :
  exists l,
    nth_error Server.locations (Nat.modulo (list_sum [192; 168; 1; 10]%nat) 8)
    = Some l
    /\ Server.getServerLocation (dotted [192; 168; 1; 10]%nat) = Some l
    /\ Server.on_connection (dotted [192; 168; 1; 10]%nat) 5 (Fin 0)
       = Normal ([SendJSON (Server.server_info l 5)],
                 {| Server.uploadData := [];
                    Server.uploadStartTime := None;
                    Server.totalUploadBytes := 0;
                    Server.lastLatency := Fin 0 |}).
Proof.
  apply (@connection_from_dotted [192; 168; 1; 10]%nat 5 (Fin 0)).
  - discriminate.
  - reflexivity.
Defined.

(** X4.  The [connection] listener throws, before anything is sent,
    exactly when the hash of the address, a double, is NaN or an
    infinity or leaves a negative remainder; it is NaN as soon as one
    piece between the dots does not begin with a number, as in the
    IPv6 address [::1]. *)
Theorem connection_throws (ip : string) (now : Z) (last : JS.number) :
  (Server.on_connection ip now last = Throws
   <-> match Server.ip_hash ip with
       | Server.Integer hash => Z.rem hash 8 < 0
       | Server.NotANumber | Server.Infinite _ => True
       end)
  /\ (forall piece,
        In piece (Server.split_dot ip) ->
        Server.parseInt piece = Server.NotANumber ->
        Server.on_connection ip now last = Throws).
Proof.
  assert (Hiff : Server.on_connection ip now last = Throws
                 <-> match Server.ip_hash ip with
                     | Server.Integer hash => Z.rem hash 8 < 0
                     | Server.NotANumber | Server.Infinite _ => True
                     end).
  { unfold Server.on_connection, Server.getServerLocation.
    destruct (Server.ip_hash ip) as [| hash | negative]; [tauto | | tauto].
    change (Z.of_nat (List.length Server.locations)) with 8.
    destruct (Z.ltb_spec (Z.rem hash 8) 0) as [Hneg | Hpos]; [tauto |].
    destruct (@location_in_range (Z.rem hash 8)) as [l Hl].
    { pose proof (Z.rem_bound_abs hash 8). lia. }
    rewrite Hl. split; [discriminate | lia]. }
  split; [exact Hiff |].
  intros piece Hin Hbad. apply Hiff.
  unfold Server.ip_hash. now rewrite (hash_of_bad_piece _ _ Hin Hbad).
Qed.

Lemma connection_throws_witness :
  Server.on_connection "::1" 5 (Fin 0) = Throws.
Proof.
  apply (proj2 (connection_throws "::1" 5 (Fin 0)) "::1");
    [left |]; reflexivity.
Defined.

End Addresses.

(** *** The server chosen for a client *)

Section Location.

Import JS Examples Notions.

(** C10, as the listener sends it.  The location chosen, and with it
    the [server] member of the [server-info] message, depends on the
    client's address alone: two connections from one address, at
    whatever clock readings, agree on it, and it is the location
    [getServerLocation] gives for the address.  The message a served
    connection gets has that location as its [server] member and the
    clock reading at the connection as its [timestamp] member.  The
    address itself counts only through the remainder of its hash by
    the number of locations: two addresses whose hashes leave the same
    remainder are given the same location, and a dotted decimal
    address whose numbers add up to less than 2^53 is given the
    location at index (sum of the numbers) mod 8 of the table. *)
Theorem server_member_depends_on_ip_only (ip : string) (now1 now2 : Z)
  (last1 last2 : JS.number) :
  Server.connection_server (Server.on_connection ip now1 last1)
  = Server.connection_server (Server.on_connection ip now2 last2)
  /\ Server.connection_server (Server.on_connection ip now1 last1)
     = match Server.getServerLocation ip with
       | Some l => Normal [Some (Server.location_json l)]
       | None => Throws
       end
  /\ (forall frames s,
        Server.on_connection ip now1 last1 = Normal (frames, s) ->
        exists l,
          Server.getServerLocation ip = Some l
          /\ frames = [SendJSON
                         (JObj [ ("type", JStr "server-info");
                                 ("server", Server.location_json l);
                                 ("timestamp", JNum (inject_Z now1)) ])]
          /\ map (Server.sent_member "timestamp") frames
             = [Some (JNum (inject_Z now1))])
  /\ (forall ip' hash hash',
        Server.ip_hash ip = Server.Integer hash ->
        Server.ip_hash ip' = Server.Integer hash' ->
        Z.rem hash 8 = Z.rem hash' 8 ->
        Server.getServerLocation ip = Server.getServerLocation ip')
  /\ (forall octets,
        ip = dotted octets ->
        octets <> [] ->
        Z.of_nat (list_sum octets) < 2 ^ 53 ->
        Server.getServerLocation ip
        = nth_error Server.locations (Nat.modulo (list_sum octets) 8)).
Proof.
  split; [| split; [| split; [| split]]].
  - unfold Server.on_connection.
    destruct (Server.getServerLocation ip) as [l |]; reflexivity.
  - unfold Server.on_connection.
    destruct (Server.getServerLocation ip) as [l |]; reflexivity.
  - intros frames s Hserved. unfold Server.on_connection in Hserved.
    destruct (Server.getServerLocation ip) as [l |]; [| discriminate].
    injection Hserved as <- <-. exists l. repeat split.
  - intros ip' hash hash' Hhash Hhash' Hrem.
    unfold Server.getServerLocation. rewrite Hhash, Hhash'.
    change (Z.of_nat (List.length Server.locations)) with 8.
    now rewrite Hrem.
  - intros octets -> Hsome Hsmall.
    exact (@location_of_dotted octets Hsome Hsmall).
Qed.

Lemma server_member_depends_on_ip_only_witness :
  Server.getServerLocation "10.0.0.1" = Server.getServerLocation "1.2.0.16".
Proof.
  apply (proj1 (proj2 (proj2 (proj2 (@server_member_depends_on_ip_only
                                       "10.0.0.1" 5 6 (Fin 0) (Fin 0)))))
           "1.2.0.16" 11 19); reflexivity.
Defined.

(** C10 as stated fails for the message as a whole: two connections
    from 10.0.0.1 at different clock readings get different
    [server-info] messages. *)
Lemma server_info_depends_on_clock :
  Server.on_connection "10.0.0.1" 5 (Fin 0)
  <> Server.on_connection "10.0.0.1" 6 (Fin 0)
  /\ Server.connection_server (Server.on_connection "10.0.0.1" 5 (Fin 0))
     = Server.connection_server (Server.on_connection "10.0.0.1" 6 (Fin 0)).
Proof.
  split; [| reflexivity].
  intro H. vm_compute in H. discriminate H.
Qed.

End Location.

(** *** The download test *)

Section DownloadTest.

Import JS Notions.

Variable S2N : string -> JS.number.













End DownloadTest.

Section DownloadExamples.

Import JS Notions Examples.



End DownloadExamples.

(** *** Answers and the upload test *)

Section ServerMessages.

Import JS Notions.

Variable S2N : string -> JS.number.


Lemma buffered_after_push (s : Server.state) (m : list Byte.byte) start total :
  buffered_bytes
    {| Server.uploadData := Server.uploadData s ++ [m];
       Server.uploadStartTime := start;
       Server.totalUploadBytes := total;
       Server.lastLatency := Server.lastLatency s |}
  = buffered_bytes s + Z.of_nat (List.length m).
Proof.
  unfold buffered_bytes. cbn [Server.uploadData].
  induction (Server.uploadData s) as [| m' ms IH]; cbn [app fold_right];
    [lia | rewrite IH; lia].
Qed.

Lemma on_binary_consistent (e : Server.env) (payload : list Byte.byte)
  (s : Server.state) :
  upload_consistent s ->
  upload_consistent (fst (Server.on_binary e payload s)).
Proof.
  intro Hs. unfold Server.on_binary.
  destruct (Server.started s) as [start |] eqn:Hstarted; [| exact Hs].
  destruct (Server.now e - start >=? Server.UPLOAD_TEST_DURATION).
  - cbn [fst]. unfold upload_consistent, Server.started. reflexivity.
  - cbn [fst].
    match goal with |- upload_consistent ?x => set (s1 := x) end.
    assert (Hsame : Server.started s1 = Server.started s) by reflexivity.
    unfold upload_consistent in *. rewrite Hsame, Hstarted.
    rewrite Hstarted in Hs. subst s1.
    rewrite buffered_after_push. cbn [Server.totalUploadBytes]. lia.
Qed.

Lemma on_message_consistent (e : Server.env) (m : frame)
  (s s' : Server.state) (frames : list sent) :
  upload_consistent s ->
  Server.on_message S2N e m s = Some (s', frames) ->
  upload_consistent s'.
Proof.
  intros Hs Hrun. destruct m as [[data |] | payload].
  - unfold Server.on_message, Server.on_control in Hrun.
    destruct (member data "type") as [[[| b | q | tag | items | ms] |] |];
      try (injection Hrun as <- <-; exact Hs).
    destruct (String.eqb tag "start-download").
    { destruct data; try (injection Hrun as <- <-; exact Hs).
      destruct (Server.download_run _ _ _) as [[out [|]] |];
        [| | discriminate]; injection Hrun as <- <-; exact Hs. }
    destruct (String.eqb tag "start-upload").
    { injection Hrun as <- <-. unfold upload_consistent, Server.started.
      cbn [Server.uploadStartTime].
      destruct (Server.now e =? 0); reflexivity. }
    destruct (String.eqb tag "ping").
    { destruct (Server.pong data); injection Hrun as <- <-; exact Hs. }
    destruct (String.eqb tag "latency-test");
      [| injection Hrun as <- <-; exact Hs].
    destruct (member data "timestamp"); [| injection Hrun as <- <-; exact Hs].
    destruct (Server.calculateJitter _ _) as [jitter last'].
    injection Hrun as <- <-. exact Hs.
  - injection Hrun as <- <-. exact Hs.
  - cbn [Server.on_message] in Hrun.
    pose proof (@on_binary_consistent e payload s Hs) as H.
    destruct (Server.on_binary e payload s). injection Hrun as <- <-.
    exact H.
Qed.

(** X8.  On every connection, after any series of messages, the byte
    counter of a running upload test is the size of the messages
    buffered in [uploadData]: each upload message is counted once and
    buffered once, and a new test starts both from nothing. *)
Theorem upload_counter_matches_buffer (ip : string) (now : Z)
  (last : JS.number) (frames : list sent) (s0 s : Server.state)
  (messages : list (Server.env * frame))
  (Hconnect : Server.on_connection ip now last = Normal (frames, s0))
  (Hserve : serve S2N messages s0 = Some s) :
  upload_consistent s.
Proof.
  assert (H0 : upload_consistent s0).
  { unfold Server.on_connection in Hconnect.
    destruct (Server.getServerLocation ip); [| discriminate].
    injection Hconnect as _ <-. exact I. }
  clear Hconnect. revert s0 H0 Hserve.
  induction messages as [| [e m] rest IH]; intros s0 H0 Hserve.
  - injection Hserve as <-. exact H0.
  - cbn [serve] in Hserve.
    destruct (Server.on_message S2N e m s0) as [[s1 out] |] eqn:Hstep;
      [| discriminate].
    apply (IH s1); [| exact Hserve].
    exact (@on_message_consistent e m s0 s1 out H0 Hstep).
Qed.

(** X9.  The upload message that arrives 5000 ms or more after the
    test began ends the test: it is counted, a progress report and the
    [upload-complete] message are sent, whose speed is the bytes
    counted over the nominal five seconds, whatever time elapsed, and
    the start time and the buffer are cleared, so that every later
    upload message is dropped. *)
Theorem upload_completes_and_stops (e : Server.env)
  (payload : list Byte.byte) (s : Server.state) (start : Z)
  (Hstarted : Server.started s = Some start)
  (Hlate : Server.UPLOAD_TEST_DURATION <= Server.now e - start) :
  let total := Server.totalUploadBytes s + Z.of_nat (List.length payload) in
  let elapsed := Server.now e - start in
  exists s' q,
    Server.on_message S2N e (Binary payload) s
    = Some (s', [ SendJSON (Server.upload_progress total elapsed);
                  SendJSON (Server.upload_complete total elapsed) ])
    /\ Server.sent_member "speed"
         (SendJSON (Server.upload_complete total elapsed)) = Some (JNum q)
    /\ q == inject_Z total * 8 / 5 / 1000000
    /\ Server.totalUploadBytes s' = total
    /\ Server.uploadStartTime s' = None
    /\ Server.uploadData s' = []
    /\ forall e' payload',
         Server.on_message S2N e' (Binary payload') s' = Some (s', []).
Proof.
  intros total elapsed.
  assert (Hspeed : exists q,
             Server.mbps total Server.UPLOAD_TEST_DURATION = Fin q
             /\ q == inject_Z total * 8 / 5 / 1000000).
  { pose proof (@mbps_value total Server.UPLOAD_TEST_DURATION
                  ltac:(discriminate)) as Hv.
    destruct (Server.mbps total Server.UPLOAD_TEST_DURATION) as [q | | |];
      try contradiction.
    exists q. split; [reflexivity |]. unfold is_value in Hv. rewrite Hv.
    unfold Server.UPLOAD_TEST_DURATION. field. }
  destruct Hspeed as [q [Hq Hval]].
  eexists. exists q. split; [| split; [| split]].
  - cbn [Server.on_message]. unfold Server.on_binary. rewrite Hstarted.
    fold total. fold elapsed.
    assert (H1 : (elapsed >=? 1000) = true).
    { unfold Server.UPLOAD_TEST_DURATION in Hlate. subst elapsed. lia. }
    assert (H2 : (elapsed >=? Server.UPLOAD_TEST_DURATION) = true)
      by (subst elapsed; lia).
    rewrite H1, H2. reflexivity.
  - cbn [Server.sent_member Server.upload_complete assoc String.eqb Ascii.eqb
           Bool.eqb].
    now rewrite Hq.
  - exact Hval.
  - cbn [Server.totalUploadBytes Server.uploadStartTime Server.uploadData].
    repeat split.
Qed.

(** X10.  No upload report carries [null] for its speed: a progress
    report is sent only after 1000 ms and the final speed is taken over
    five seconds, so the divisor is never zero. *)
Theorem upload_speed_never_null (e : Server.env) (payload : list Byte.byte)
  (s : Server.state) :
  Forall (fun f => exists q, Server.sent_member "speed" f = Some (JNum q))
         (snd (Server.on_binary e payload s)).
Proof.
  assert (Hfin : forall bytes elapsed,
             elapsed <> 0 -> exists q, num_json (Server.mbps bytes elapsed) = JNum q).
  { intros bytes elapsed Hne. pose proof (@mbps_value bytes elapsed Hne) as Hv.
    destruct (Server.mbps bytes elapsed) as [q | | |]; try contradiction.
    now exists q. }
  unfold Server.on_binary.
  destruct (Server.started s) as [start |]; [| constructor].
  set (total := Server.totalUploadBytes s + Z.of_nat (List.length payload)).
  set (elapsed := Server.now e - start).
  assert (Hprogress :
            Forall (fun f => exists q, Server.sent_member "speed" f = Some (JNum q))
                   (if elapsed >=? 1000
                    then [SendJSON (Server.upload_progress total elapsed)]
                    else [])).
  { destruct (Z.geb_spec elapsed 1000) as [Hge | Hlt]; [| constructor].
    constructor; [| constructor].
    destruct (@Hfin total elapsed ltac:(lia)) as [q Hq].
    exists q.
    cbn [Server.sent_member Server.upload_progress assoc String.eqb
           Ascii.eqb Bool.eqb].
    now rewrite Hq. }
  destruct (elapsed >=? Server.UPLOAD_TEST_DURATION); cbn [snd].
  - apply Forall_app. split; [exact Hprogress |].
    constructor; [| constructor].
    destruct (@Hfin total Server.UPLOAD_TEST_DURATION ltac:(discriminate))
      as [q Hq].
    exists q.
    cbn [Server.sent_member Server.upload_complete assoc String.eqb
           Ascii.eqb Bool.eqb].
    now rewrite Hq.
  - exact Hprogress.
Qed.

End ServerMessages.

Section ServerExamples.

Import JS Notions Examples.


Lemma upload_counter_matches_buffer_witness :
  upload_consistent
    {| Server.uploadData := [[Byte.x00; Byte.x01; Byte.x02];
                             [Byte.x03; Byte.x04]];
       Server.uploadStartTime := Some 1000;
       Server.totalUploadBytes := 5;
       Server.lastLatency := Fin 0 |}.
Proof.
  apply (@upload_counter_matches_buffer no_number "10.0.0.1" 5 (Fin 0)
           _ _ _ two_uploads eq_refl).
  reflexivity.
Defined.

Lemma upload_completes_and_stops_witness :
  exists s' q,
    Server.on_message no_number (at_time 6000) (Binary [Byte.x03; Byte.x04])
      uploading
    = Some (s', [ SendJSON (Server.upload_progress 5 5000);
                  SendJSON (Server.upload_complete 5 5000) ])
    /\ Server.sent_member "speed" (SendJSON (Server.upload_complete 5 5000))
       = Some (JNum q)
    /\ q == inject_Z 5 * 8 / 5 / 1000000
    /\ Server.totalUploadBytes s' = 5
    /\ Server.uploadStartTime s' = None
    /\ Server.uploadData s' = []
    /\ forall e' payload',
         Server.on_message no_number e' (Binary payload') s' = Some (s', []).
Proof.
  apply (@upload_completes_and_stops no_number (at_time 6000)
           [Byte.x03; Byte.x04] uploading 1000 eq_refl).
  discriminate.
Defined.

End ServerExamples.

(** *** Jitter is a distance *)

Section JitterSign.

Import JS Notions.


End JitterSign.

(* ================================================================== *)
(** ** Further properties of the professional client *)
(* ================================================================== *)

Section ClientRuns.

Import JS Notions.

Lemma sendPing_continues (now : Z) (open : bool) (r : Client.latency_run)
  (s : Client.session) :
  Client.pingCount r < Client.targetPings ->
  fst (Client.sendPing now open r s)
  = {| Client.testInProgress := Client.testInProgress s;
       Client.currentTest := Client.currentTest s;
       Client.results := Client.results s;
       Client.latencyRun := Some r;
       Client.pending := Client.pending s |}.
Proof.
  intro Hlt. unfold Client.sendPing.
  destruct (Z.geb_spec (Client.pingCount r) Client.targetPings); [lia |].
  reflexivity.
Qed.

Lemma sendPing_resolves (now : Z) (open : bool) (r : Client.latency_run)
  (s : Client.session) :
  Client.targetPings <= Client.pingCount r ->
  Client.pending s = Client.AwaitLatency ->
  fst (Client.sendPing now open r s)
  = {| Client.testInProgress := Client.testInProgress s;
       Client.currentTest := Some "download";
       Client.results :=
         {| Client.download := Client.download (Client.results s);
            Client.upload := Client.upload (Client.results s);
            Client.ping := Client.pings r;
            Client.jitter := Client.jitter (Client.results s) |};
       Client.latencyRun := Some r;
       Client.pending := Client.AwaitDownload (Client.fresh_transfer now) |}.
Proof.
  intros Hge Hpending. unfold Client.sendPing.
  destruct (Z.geb_spec (Client.pingCount r) Client.targetPings); [| lia].
  rewrite Hpending. reflexivity.
Qed.

(** Once the promise of the latency test is resolved, [sendPing] never
    resumes [startFullTest] again. *)
Lemma sendPing_stale (now : Z) (open : bool) (r : Client.latency_run)
  (s : Client.session) :
  Client.pending s <> Client.AwaitLatency ->
  let s' := fst (Client.sendPing now open r s) in
  Client.pending s' = Client.pending s
  /\ Client.currentTest s' = Client.currentTest s
  /\ Client.testInProgress s' = Client.testInProgress s
  /\ Client.download (Client.results s') = Client.download (Client.results s)
  /\ Client.upload (Client.results s') = Client.upload (Client.results s)
  /\ ~ In (Client.SetInterval 100) (snd (Client.sendPing now open r s)).
Proof.
  intro Hpending. unfold Client.sendPing.
  destruct (Client.pingCount r >=? Client.targetPings).
  - destruct (Client.pending s) eqn:Hp; try contradiction;
      cbn; rewrite ?Hp; repeat split; intros [H | [H | []]]; discriminate H.
  - cbn. repeat split.
    destruct open; cbn; intros H; repeat destruct H as [H | H];
      try discriminate H; exact H.
Qed.

(** X12.  After the latency test has handed over, its late events (a
    pong, or a timer still pending) cannot restart or disturb the
    tests that follow: the promise awaited, [currentTest],
    [testInProgress] and the download and upload results are what they
    were, and no interval is set. *)
Theorem late_latency_events_harmless (e : Client.env) (ev : Client.event)
  (s s' : Client.session) (effects : list Client.effect)
  (Hevent : latency_event ev = true)
  (Hpending : Client.pending s <> Client.AwaitLatency)
  (Hstep : Client.step e ev s = Some (s', effects)) :
  Client.pending s' = Client.pending s
  /\ Client.currentTest s' = Client.currentTest s
  /\ Client.testInProgress s' = Client.testInProgress s
  /\ Client.download (Client.results s') = Client.download (Client.results s)
  /\ Client.upload (Client.results s') = Client.upload (Client.results s)
  /\ ~ In (Client.SetInterval 100) effects.
Proof.
  destruct ev as [| timestamp | | |]; try discriminate Hevent;
    cbn [Client.step] in Hstep;
    destruct (Client.latencyRun s) as [r |]; try discriminate Hstep;
    cbn [option_map] in Hstep.
  - (* pong *)
    unfold Client.handlePong in Hstep.
    match type of Hstep with
    | context [Client.sendPing ?n ?o ?r' s] =>
        pose proof (@sendPing_stale n o r' s Hpending) as Hstale;
        destruct (Client.sendPing n o r' s) as [s1 sent]
    end.
    injection Hstep as <- <-. cbn [fst snd] in Hstale.
    destruct Hstale as [H1 [H2 [H3 [H4 [H5 H6]]]]].
    repeat split; try assumption.
    intros [H | [H | H]]; [discriminate H | discriminate H | now apply H6].
  - (* the timer after a ping *)
    unfold Client.fallbackTimeout in Hstep.
    destruct (Client.pingCount r <? Client.targetPings).
    + match type of Hstep with
      | context [Client.sendPing ?n ?o ?r' s] =>
          pose proof (@sendPing_stale n o r' s Hpending) as Hstale;
          destruct (Client.sendPing n o r' s) as [s1 sent]
      end.
      injection Hstep as <- <-. exact Hstale.
    + injection Hstep as <- <-. repeat split. intros [].
  - (* the timer without a socket *)
    unfold Client.offlineTimeout in Hstep.
    match type of Hstep with
    | context [Client.sendPing ?n ?o ?r' s] =>
        pose proof (@sendPing_stale n o r' s Hpending) as Hstale;
        destruct (Client.sendPing n o r' s) as [s1 sent]
    end.
    injection Hstep as <- <-. cbn [fst snd] in Hstale.
    destruct Hstale as [H1 [H2 [H3 [H4 [H5 H6]]]]].
    repeat split; try assumption.
    intros [H | H]; [discriminate H | now apply H6].
Qed.

Lemma run_app (a b : list (Client.env * Client.event)) (s : Client.session) :
  Client.run (a ++ b) s
  = match Client.run a s with
    | Some s1 => Client.run b s1
    | None => None
    end.
Proof.
  revert s. induction a as [| [e ev] a IH]; intro s; [reflexivity |].
  cbn [app Client.run]. destruct (Client.step e ev s) as [[s1 out] |];
    [apply IH | reflexivity].
Qed.

(** The timer of the latency test without a socket adds one sample
    and, below ten, sets itself again. *)
Lemma offline_timers_count (envs : list Client.env) :
  forall s r,
    Client.latencyRun s = Some r ->
    Client.pingCount r + Z.of_nat (List.length envs) < Client.targetPings ->
    exists s' r',
      Client.run (offline_timers envs) s = Some s'
      /\ Client.latencyRun s' = Some r'
      /\ Client.pingCount r' = Client.pingCount r + Z.of_nat (List.length envs)
      /\ List.length (Client.pings r')
         = (List.length (Client.pings r) + List.length envs)%nat
      /\ Client.pending s' = Client.pending s
      /\ Client.testInProgress s' = Client.testInProgress s
      /\ Client.currentTest s' = Client.currentTest s
      /\ Client.results s' = Client.results s.
Proof.
  induction envs as [| e envs IH]; intros s r Hrun Hcount.
  - exists s, r. cbn. repeat split; try assumption; lia.
  - cbn [List.length] in Hcount.
    cbn [offline_timers map Client.run Client.step]. rewrite Hrun.
    cbn [option_map]. unfold Client.offlineTimeout.
    match goal with
    | |- context [Client.sendPing ?n ?o ?r' s] =>
        pose proof (@sendPing_continues n o r' s) as Hnext;
        set (r1 := r') in *;
        destruct (Client.sendPing n o r1 s) as [s1 sent]
    end.
    cbn [fst] in Hnext.
    assert (H1 : Client.pingCount r1 = Client.pingCount r + 1) by reflexivity.
    specialize (Hnext ltac:(lia)).
    destruct (IH s1 r1) as [s' [r' [Hs' [Hr' [Hc [Hl [Hp [Hf [Ht Hres]]]]]]]]].
    { now rewrite Hnext. }
    { lia. }
    exists s', r'. fold (offline_timers envs). cbn [List.length].
    split; [exact Hs' |]. split; [exact Hr' |].
    split; [lia |].
    split; [rewrite Hl; subst r1; cbn [Client.pings];
            rewrite length_app; cbn [List.length]; lia |].
    rewrite Hp, Hf, Ht, Hres, Hnext. repeat split.
Qed.

(** X13.  Without a socket, a click on an idle client and the ten runs
    of the 100 ms timer that follow make up the latency test: the
    tenth run stores the ten samples as the ping results and hands
    over to the download test, which begins at the clock of that
    run. *)
Theorem offline_latency_test_hands_over (e0 e10 : Client.env)
  (envs : list Client.env) (s0 : Client.session)
  (Hidle : Client.testInProgress s0 = false)
  (Hsocket : Forall (fun e => Client.wsOpen e = false) (e0 :: envs ++ [e10]))
  (Hnine : List.length envs = 9%nat) :
  exists s',
    Client.run ((e0, Client.Click) :: offline_timers (envs ++ [e10])) s0
    = Some s'
    /\ Client.pending s'
       = Client.AwaitDownload (Client.fresh_transfer (Client.clock e10))
    /\ Client.testInProgress s' = true
    /\ Client.currentTest s' = Some "download"
    /\ List.length (Client.ping (Client.results s')) = 10%nat
    /\ Client.download (Client.results s') = [].
Proof.
  cbn [Client.run Client.step]. unfold Client.startFullTest. rewrite Hidle.
  set (r0 := {| Client.pings := []; Client.pingCount := 0 |}).
  match goal with
  | |- context [Client.sendPing ?n ?o r0 ?s] =>
      pose proof (@sendPing_continues n o r0 s ltac:(reflexivity)) as Hfirst;
      destruct (Client.sendPing n o r0 s) as [s1 sent]
  end.
  cbn [fst] in *. unfold offline_timers. rewrite map_app.
  fold (offline_timers envs). fold (offline_timers [e10]). rewrite run_app.
  destruct (@offline_timers_count envs s1 r0)
    as [s9 [r9 [Hs9 [Hr9 [Hc [Hl [Hp [Hf [Ht Hres]]]]]]]]].
  { now rewrite Hfirst. }
  { rewrite Hnine. reflexivity. }
  rewrite Hs9. cbn [offline_timers map Client.run Client.step].
  rewrite Hr9. cbn [option_map]. unfold Client.offlineTimeout.
  match goal with
  | |- context [Client.sendPing ?n ?o ?r' s9] =>
      pose proof (@sendPing_resolves n o r' s9) as Hlast;
      set (r10 := r') in *;
      destruct (Client.sendPing n o r10 s9) as [s10 sent10]
  end.
  cbn [fst] in Hlast.
  assert (H10 : Client.pingCount r10 = Client.pingCount r9 + 1) by reflexivity.
  rewrite Hnine in Hc, Hl. cbn in Hc, Hl.
  specialize (Hlast ltac:(unfold Client.targetPings; lia)
                    ltac:(rewrite Hp, Hfirst; reflexivity)).
  exists s10. split; [reflexivity |]. rewrite Hlast.
  cbn [Client.pending Client.testInProgress Client.currentTest
         Client.results Client.ping Client.download].
  rewrite Hf, Hres, Hfirst. repeat split.
  subst r10. cbn [Client.pings]. rewrite length_app, Hl. reflexivity.
Qed.

(** The interval callback of the download test counts one chunk while
    the test runs. *)
Lemma download_timers_count (envs : list Client.env) :
  forall s x,
    Client.testInProgress s = true ->
    Client.pending s = Client.AwaitDownload x ->
    Client.chunk x + Z.of_nat (List.length envs) <= Client.download_chunks ->
    exists s' x',
      Client.run (download_timers envs) s = Some s'
      /\ Client.pending s' = Client.AwaitDownload x'
      /\ Client.totalBytes x'
         = Client.totalBytes x + 1024 * 1024 * Z.of_nat (List.length envs)
      /\ Client.chunk x' = Client.chunk x + Z.of_nat (List.length envs)
      /\ List.length (Client.speeds x')
         = (List.length (Client.speeds x) + List.length envs)%nat
      /\ Client.startTime x' = Client.startTime x
      /\ Client.testInProgress s' = true
      /\ Client.currentTest s' = Client.currentTest s
      /\ Client.results s' = Client.results s.
Proof.
  induction envs as [| e envs IH]; intros s x Hflag Hpending Hcount.
  - exists s, x. cbn. repeat split; try assumption; lia.
  - cbn [List.length] in Hcount.
    cbn [download_timers map Client.run Client.step]. rewrite Hpending.
    unfold Client.download_tick, Client.finished. rewrite Hflag.
    destruct (Z.geb_spec (Client.chunk x) Client.download_chunks) as [Hge | Hlt];
      [lia |].
    cbn [orb negb].
    match goal with
    | |- context [Client.run _ ?s1] => set (s1' := s1)
    end.
    edestruct (IH s1') as [s' [x' [Hs' [Hp [Hb [Hc [Hl [Hst [Hf [Ht Hres]]]]]]]]]].
    { reflexivity. }
    { reflexivity. }
    { cbn [Client.chunk]. lia. }
    exists s', x'. fold (download_timers envs). cbn [List.length].
    split; [exact Hs' |]. split; [exact Hp |].
    cbn [Client.totalBytes Client.chunk Client.speeds Client.startTime] in *.
    rewrite length_app in Hl. cbn [List.length] in Hl.
    repeat split; try assumption; try lia.
Qed.

(** X14.  The download test of a running session counts one MiB at
    each of the first 80 runs of its timer, adding one rate each time,
    and the 81st run ends it: the 80 rates become the download
    results and the upload test begins at the second clock reading of
    that run. *)
Theorem download_test_counts_eighty (envs : list Client.env)
  (e : Client.env) (s : Client.session) (t0 : Z)
  (Hflag : Client.testInProgress s = true)
  (Hpending : Client.pending s = Client.AwaitDownload (Client.fresh_transfer t0))
  (Heighty : List.length envs = 80%nat) :
  (forall k, (k <= 80)%nat ->
     exists s' x,
       Client.run (download_timers (firstn k envs)) s = Some s'
       /\ Client.pending s' = Client.AwaitDownload x
       /\ Client.totalBytes x = 1024 * 1024 * Z.of_nat k
       /\ Client.chunk x = Z.of_nat k
       /\ List.length (Client.speeds x) = k
       /\ Client.startTime x = t0)
  /\ exists s',
       Client.run (download_timers (envs ++ [e])) s = Some s'
       /\ Client.pending s'
          = Client.AwaitUpload (Client.fresh_transfer (Client.clock' e))
       /\ Client.currentTest s' = Some "upload"
       /\ List.length (Client.download (Client.results s')) = 80%nat.
Proof.
  split.
  - intros k Hk.
    destruct (@download_timers_count (firstn k envs) s
                (Client.fresh_transfer t0) Hflag Hpending)
      as [s' [x' [Hs' [Hp [Hb [Hc [Hl [Hst _]]]]]]]].
    { rewrite length_firstn, Heighty. cbn [Client.fresh_transfer Client.chunk].
      unfold Client.download_chunks. lia. }
    rewrite length_firstn, Heighty, Nat.min_l in * by exact Hk.
    exists s', x'. cbn in Hb, Hc, Hl, Hst. repeat split; try assumption; lia.
  - destruct (@download_timers_count envs s (Client.fresh_transfer t0)
                Hflag Hpending)
      as [s80 [x80 [Hs80 [Hp [Hb [Hc [Hl [Hst [Hf [Ht Hres]]]]]]]]]].
    { rewrite Heighty. reflexivity. }
    unfold download_timers. rewrite map_app.
    fold (download_timers envs). rewrite run_app, Hs80.
    cbn [map Client.run Client.step]. rewrite Hp.
    unfold Client.download_tick, Client.finished.
    rewrite Heighty in Hc, Hl. cbn in Hc, Hl.
    rewrite Hc. cbn [orb Z.geb Z.compare Pos.compare Pos.compare_cont].
    eexists. split; [reflexivity |].
    cbn. repeat split. exact Hl.
Qed.

End ClientRuns.

Section ClientExamples.

Import JS Notions Examples.

Lemma late_latency_events_harmless_witness :
  match Client.step (offline_at 2050) Client.OfflineTimer reached with
  | Some (s', effects) =>
      Client.pending s' = Client.pending reached
      /\ Client.currentTest s' = Client.currentTest reached
      /\ Client.testInProgress s' = Client.testInProgress reached
      /\ Client.download (Client.results s')
         = Client.download (Client.results reached)
      /\ Client.upload (Client.results s')
         = Client.upload (Client.results reached)
      /\ ~ In (Client.SetInterval 100) effects
  | None => False
  end.
Proof.
  assert (Hpending : Client.pending reached <> Client.AwaitLatency).
  { intro H. vm_compute in H. discriminate H. }
  destruct (Client.step (offline_at 2050) Client.OfflineTimer reached)
    as [[s' effects] |] eqn:Hstep.
  - exact (@late_latency_events_harmless (offline_at 2050)
             Client.OfflineTimer reached s' effects eq_refl Hpending Hstep).
  - vm_compute in Hstep. discriminate Hstep.
Defined.

Lemma offline_latency_test_hands_over_witness :
  exists s',
    Client.run ((offline_at 0, Client.Click)
                :: offline_timers
                     (map offline_at [100; 200; 300; 400; 500; 600; 700;
                                      800; 900]
                      ++ [offline_at 1000]))
      Client.initial
    = Some s'
    /\ Client.pending s'
       = Client.AwaitDownload (Client.fresh_transfer 1000)
    /\ Client.testInProgress s' = true
    /\ Client.currentTest s' = Some "download"
    /\ List.length (Client.ping (Client.results s')) = 10%nat
    /\ Client.download (Client.results s') = [].
Proof.
  apply (@offline_latency_test_hands_over (offline_at 0) (offline_at 1000)
           (map offline_at [100; 200; 300; 400; 500; 600; 700; 800; 900])
           Client.initial).
  - reflexivity.
  - repeat constructor.
  - reflexivity.
Defined.

Lemma download_test_counts_eighty_witness :
  exists s',
    Client.run
      (download_timers
         (map (fun k => offline_at (1000 + 100 * Z.of_nat k)) (seq 1 80)
          ++ [offline_at 9100]))
      (downloading true (Client.fresh_transfer 1000))
    = Some s'
    /\ Client.pending s' = Client.AwaitUpload (Client.fresh_transfer 9100)
    /\ Client.currentTest s' = Some "upload"
    /\ List.length (Client.download (Client.results s')) = 80%nat.
Proof.
  apply (proj2 (@download_test_counts_eighty
                  (map (fun k => offline_at (1000 + 100 * Z.of_nat k))
                       (seq 1 80))
                  (offline_at 9100)
                  (downloading true (Client.fresh_transfer 1000)) 1000
                  eq_refl eq_refl eq_refl)).
Defined.

End ClientExamples.

(** *** The latency shown lies among the samples *)

Section LatencyRange.

Import JS Notions.

Lemma sum_between (rtts : list Q) (lo hi : Q) :
  Forall (fun q => lo <= q /\ q <= hi)%Q rtts ->
  (lo * inject_Z (Z.of_nat (List.length rtts)) <= fold_right Qplus 0 rtts
   /\ fold_right Qplus 0 rtts <= hi * inject_Z (Z.of_nat (List.length rtts)))%Q.
Proof.
  induction 1 as [| q rest [Hlo Hhi] Hrest [IHlo IHhi]].
  - cbn. split; rewrite Qmult_0_r; apply Qle_refl.
  - cbn [List.length fold_right].
    rewrite Nat2Z.inj_succ, <- Z.add_1_r, inject_Z_plus.
    split.
    + setoid_replace (lo * (inject_Z (Z.of_nat (List.length rest)) + inject_Z 1))%Q
        with (lo + lo * inject_Z (Z.of_nat (List.length rest)))%Q by ring.
      now apply Qplus_le_compat.
    + setoid_replace (hi * (inject_Z (Z.of_nat (List.length rest)) + inject_Z 1))%Q
        with (hi + hi * inject_Z (Z.of_nat (List.length rest)))%Q by ring.
      now apply Qplus_le_compat.
Qed.

(** X15.  The latency both clients show lies between the smallest and
    the largest sample: for samples between the integers [lo] and
    [hi], the number shown is an integer between [lo] and [hi]. *)
Theorem shown_latency_within_samples (rtts : list Q) (lo hi : Z)
  (Hne : rtts <> [])
  (Hall : Forall (fun q => inject_Z lo <= q /\ q <= inject_Z hi)%Q rtts) :
  exists z : Z,
    Client.shown_latency (map Fin rtts) = of_Z z
    /\ Simple.testPing (map Fin rtts) = of_Z z
    /\ lo <= z <= hi.
Proof.
  destruct (mean_value Hne) as [y [Hy Hv]].
  destruct (round_nearest y) as [z [Hz [Hfloor Hceil]]].
  destruct (sum_between Hall) as [Hlo Hhi].
  assert (Hn : (0 < inject_Z (Z.of_nat (List.length rtts)))%Q).
  { destruct rtts as [| a rest]; [contradiction |].
    change 0%Q with (inject_Z 0). rewrite <- Zlt_Qlt.
    cbn [List.length]. lia. }
  assert (Hylo : (inject_Z lo <= y)%Q).
  { rewrite Hv. now apply Qle_shift_div_l. }
  assert (Hyhi : (y <= inject_Z hi)%Q).
  { rewrite Hv. now apply Qle_shift_div_r. }
  exists z. split; [| split].
  - unfold Client.shown_latency. now rewrite Hy.
  - unfold Simple.testPing. fold (Client.mean (map Fin rtts)). now rewrite Hy.
  - split.
    + assert (H : (inject_Z lo < inject_Z (z + 1))%Q).
      { rewrite inject_Z_plus. eapply Qle_lt_trans; [exact Hylo |].
        eapply Qle_lt_trans; [| exact Hceil].
        rewrite <- (Qplus_0_r y) at 1. apply Qplus_le_compat;
          [apply Qle_refl | discriminate]. }
      rewrite <- Zlt_Qlt in H. lia.
    + assert (H : (inject_Z z < inject_Z (hi + 1))%Q).
      { rewrite inject_Z_plus. eapply Qle_lt_trans; [exact Hfloor |].
        eapply Qle_lt_trans.
        - apply Qplus_le_compat; [exact Hyhi | apply Qle_refl].
        - apply Qplus_lt_r. reflexivity. }
      rewrite <- Zlt_Qlt in H. lia.
Qed.

Lemma shown_latency_within_samples_witness :
  exists z : Z,
    Client.shown_latency (map Fin [40; 60; 50; 71]%Q) = of_Z z
    /\ Simple.testPing (map Fin [40; 60; 50; 71]%Q) = of_Z z
    /\ 40 <= z <= 71.
Proof.
  apply (@shown_latency_within_samples [40; 60; 50; 71]%Q 40 71).
  - discriminate.
  - repeat constructor; discriminate.
Defined.

End LatencyRange.

(* ================================================================== *)
(** ** Further properties of the simple client *)
(* ================================================================== *)

Section SimpleClient.

Import JS Notions.

Lemma min_cap (x cap : Q) :
  exists q, min (Fin x) (Fin cap) = Fin q
            /\ (q <= cap)%Q /\ (q <= x)%Q /\ ((x <= cap)%Q -> q = x).
Proof.
  unfold min. destruct (Qle_bool x cap) eqn:Hle.
  - exists x. apply Qle_bool_iff in Hle.
    repeat split; [exact Hle | apply Qle_refl].
  - exists cap. repeat split; [apply Qle_refl | |].
    + apply Qnot_lt_le. intro Hlt. apply Qlt_le_weak in Hlt.
      apply Qle_bool_iff in Hlt. congruence.
    + intro H. apply Qle_bool_iff in H. congruence.
Qed.



End SimpleClient.

Section SimpleMeasurements.

Import JS Notions.



(** X18.  The gauge of the simple client never turns past 315 degrees:
    for every finite speed the rotation is at most 315, it is at least
    135 when the speed is not negative, and it is 315 from 300 Mbps
    on. *)
Theorem gauge_rotation_bounds (speed : Q) :
  exists r,
    Simple.updateGaugeBasedOnSpeed (Fin speed) = Fin r
    /\ (r <= 315)%Q
    /\ ((0 <= speed)%Q -> (135 <= r)%Q)
    /\ ((300 <= speed)%Q -> r == 315).
Proof.
  unfold Simple.updateGaugeBasedOnSpeed.
  rewrite div_Fin by (intro H; discriminate H). unfold mul at 2.
  match goal with
  | |- context [min (Fin ?x) (Fin ?c)] =>
      destruct (min_cap x c) as [p [Hp [Hcap [Hx Hsame]]]]; set (v := x) in *
  end.
  rewrite Hp. rewrite div_Fin by (intro H; discriminate H).
  unfold mul, add. eexists. split; [reflexivity |].
  assert (Hv : v == speed / 300 * 100) by (subst v; now rewrite !Qred_correct).
  rewrite !Qred_correct.
  split; [| split].
  - setoid_replace 315%Q with (135 + 100 / 100 * 180)%Q by reflexivity.
    apply Qplus_le_compat; [apply Qle_refl |].
    apply Qmult_le_compat_r; [| discriminate].
    apply Qmult_le_compat_r; [exact Hcap | discriminate].
  - intro Hpos.
    assert (Hp0 : (0 <= p)%Q).
    { unfold min in Hp. destruct (Qle_bool v 100); injection Hp as <-;
        [| discriminate].
      rewrite Hv. apply Qmult_le_0_compat; [| discriminate].
      apply Qle_shift_div_l; [reflexivity | now rewrite Qmult_0_l]. }
    setoid_replace 135%Q with (135 + 0)%Q at 1 by reflexivity.
    apply Qplus_le_compat; [apply Qle_refl |].
    apply Qmult_le_0_compat; [| discriminate].
    apply Qle_shift_div_l; [reflexivity | now rewrite Qmult_0_l].
  - intro Hfast.
    assert (Hfull : (100 <= v)%Q).
    { rewrite Hv. setoid_replace 100%Q with (300 / 300 * 100)%Q at 1
        by reflexivity.
      apply Qmult_le_compat_r; [| discriminate].
      apply Qmult_le_compat_r; [exact Hfast | discriminate]. }
    assert (Hp100 : p == 100).
    { apply Qle_antisym; [exact Hcap |].
      unfold min in Hp. destruct (Qle_bool v 100) eqn:Hle;
        injection Hp as <-; [exact Hfull | apply Qle_refl]. }
    rewrite Hp100. reflexivity.
Qed.

Lemma simple_step_single_flight (ev : Simple.event) (s : Simple.state) :
  single_flight s -> single_flight (Simple.step ev s).
Proof.
  unfold single_flight.
  destruct s as [d u p flag stage]. cbn [Simple.testInProgress Simple.pending].
  intros [Hrun Hidle].
  destruct ev as [| loads | l rnd | rnd], flag, stage;
    unfold Simple.step, Simple.startSpeedTest;
    cbn [Simple.testInProgress Simple.pending fst];
    try destruct (_ <? _);
    cbn [Simple.testInProgress Simple.pending];
    intuition congruence.
Qed.

(** X19.  The simple client is single-flight: from a state that is
    idle with [testInProgress] cleared, after any series of events the
    flag is set exactly while a test is suspended somewhere, and in
    every such state a click changes nothing. *)
Theorem simple_client_single_flight (events : list Simple.event)
  (s0 : Simple.state)
  (Hflag : Simple.testInProgress s0 = false)
  (Hidle : Simple.pending s0 = Simple.Idle) :
  let s := simple_run events s0 in
  single_flight s
  /\ (Simple.pending s <> Simple.Idle -> Simple.step Simple.Click s = s).
Proof.
  assert (H0 : single_flight s0).
  { unfold single_flight. rewrite Hflag, Hidle. split; intro; congruence. }
  clear Hflag Hidle. cbn zeta. unfold simple_run.
  revert s0 H0. induction events as [| ev rest IH]; intros s0 H0.
  - cbn [fold_left]. split; [exact H0 |].
    intro Hbusy. apply H0 in Hbusy.
    unfold Simple.step, Simple.startSpeedTest. now rewrite Hbusy.
  - cbn [fold_left]. apply IH. now apply simple_step_single_flight.
Qed.

End SimpleMeasurements.

Section SimpleRun.

Import JS Notions Examples.

Lemma simple_client_single_flight_witness :
  single_flight
    (simple_run [Simple.Click; Simple.PingsSettled [Simple.Failed];
                 Simple.Click]
                (Simple.step (Simple.UploadTimer 0.5) simple_running))
  /\ (Simple.pending
        (simple_run [Simple.Click; Simple.PingsSettled [Simple.Failed];
                     Simple.Click]
                    (Simple.step (Simple.UploadTimer 0.5) simple_running))
      <> Simple.Idle ->
      Simple.step Simple.Click
        (simple_run [Simple.Click; Simple.PingsSettled [Simple.Failed];
                     Simple.Click]
                    (Simple.step (Simple.UploadTimer 0.5) simple_running))
      = simple_run [Simple.Click; Simple.PingsSettled [Simple.Failed];
                    Simple.Click]
                   (Simple.step (Simple.UploadTimer 0.5) simple_running)).
Proof.
  apply (@simple_client_single_flight
           [Simple.Click; Simple.PingsSettled [Simple.Failed]; Simple.Click]
           {| Simple.downloadSpeed := Fin 0;
              Simple.uploadSpeed := Fin 0;
              Simple.pingSpeed := Fin 0;
              Simple.testInProgress := false;
              Simple.pending := Simple.Idle |});
    reflexivity.
Defined.

(** X20.  One test of the simple client is a click, the five pings,
    five download measurements and three upload measurements: after
    them the client is idle again with [testInProgress] cleared, the
    ping shown is the rounded mean of the pings, the download speed is
    the sum of the five measurements over 5 and the upload speed the
    sum of three measurements, each taken from that download speed,
    over 3. *)
Theorem simple_test_completes (s0 : Simple.state) (loads : list Simple.load)
  (downloads : list (Simple.load * Q)) (r1 r2 r3 : Q)
  (Hflag : Simple.testInProgress s0 = false)
  (Hfive : List.length downloads = 5%nat) :
  let s :=
    simple_run
      (Simple.Click :: Simple.PingsSettled loads
       :: download_events downloads
       ++ [Simple.UploadTimer r1; Simple.UploadTimer r2; Simple.UploadTimer r3])
      s0 in
  Simple.pending s = Simple.Idle
  /\ Simple.testInProgress s = false
  /\ Simple.pingSpeed s = Simple.testPing (map Simple.measurePing loads)
  /\ Simple.downloadSpeed s
     = div (sum (map (fun m => Simple.measureDownloadSpeed (fst m) (snd m))
                     downloads))
           (Fin 5)
  /\ Simple.uploadSpeed s
     = div (sum (map (Simple.measureUploadSpeed (Simple.downloadSpeed s))
                     [r1; r2; r3]))
           (Fin 3).
Proof.
  destruct downloads as [| m1 [| m2 [| m3 [| m4 [| m5 [| m6 rest]]]]]];
    try discriminate Hfive.
  cbn zeta. unfold simple_run, download_events.
  cbn [map app fold_left].
  assert (Hclick : Simple.step Simple.Click s0
                   = {| Simple.downloadSpeed := Fin 0;
                        Simple.uploadSpeed := Fin 0;
                        Simple.pingSpeed := Fin 0;
                        Simple.testInProgress := true;
                        Simple.pending := Simple.AwaitPings |}).
  { unfold Simple.step, Simple.startSpeedTest. now rewrite Hflag. }
  rewrite Hclick. repeat split.
Qed.

Lemma simple_test_completes_witness :
  Simple.pending
    (simple_run
       (Simple.Click :: Simple.PingsSettled [Simple.Loaded 0 40; Simple.Failed]
        :: download_events
             [ (Simple.Loaded 0 400, 0.5%Q); (Simple.Loaded 0 500, 0.5%Q);
               (Simple.Failed, 0.5%Q); (Simple.Loaded 0 0, 0.5%Q);
               (Simple.Loaded 0 800, 0.5%Q) ]
        ++ [Simple.UploadTimer 0.1; Simple.UploadTimer 0.5;
            Simple.UploadTimer 0.9])
       {| Simple.downloadSpeed := Fin 0;
          Simple.uploadSpeed := Fin 0;
          Simple.pingSpeed := Fin 0;
          Simple.testInProgress := false;
          Simple.pending := Simple.Idle |})
  = Simple.Idle.
Proof.
  apply (@simple_test_completes
           {| Simple.downloadSpeed := Fin 0;
              Simple.uploadSpeed := Fin 0;
              Simple.pingSpeed := Fin 0;
              Simple.testInProgress := false;
              Simple.pending := Simple.Idle |}
           [Simple.Loaded 0 40; Simple.Failed]
           [ (Simple.Loaded 0 400, 0.5%Q); (Simple.Loaded 0 500, 0.5%Q);
             (Simple.Failed, 0.5%Q); (Simple.Loaded 0 0, 0.5%Q);
             (Simple.Loaded 0 800, 0.5%Q) ]
           0.1 0.5 0.9 eq_refl eq_refl).
Defined.

End SimpleRun.

(** *** The client's dispatch *)

Section Dispatch.

Import JS Notions.

(** X21.  The professional client hands a parsed object whose [type]
    is one of the eight labels to the method of that label:
    [server-info] with [data.server], [error] with [data.message],
    every other one with the object itself.  It ignores the object
    exactly when its [type] is none of the eight labels. *)
Theorem client_dispatch_complete (members : list (string * json))
  (tag : string)
  (Htype : assoc "type" members = Some (JStr tag)) :
  let data := JObj members in
  let handed := Client.handleWebSocketMessage (Text (Some data)) in
  (handed = Client.Ignored <-> ~ In tag Client.recognised)
  /\ (tag = "server-info" ->
      handed = Client.UpdateServerInfo (assoc "server" members))
  /\ (tag = "pong" -> handed = Client.HandlePong data)
  /\ (tag = "latency-result" -> handed = Client.HandleLatencyResult data)
  /\ (tag = "download-progress" ->
      handed = Client.HandleDownloadProgress data)
  /\ (tag = "download-complete" ->
      handed = Client.HandleDownloadComplete data)
  /\ (tag = "upload-progress" -> handed = Client.HandleUploadProgress data)
  /\ (tag = "upload-complete" -> handed = Client.HandleUploadComplete data)
  /\ (tag = "error" ->
      handed = Client.ShowToastAndResetTest (assoc "message" members)).
Proof.
  intros data handed. subst data handed.
  unfold Client.handleWebSocketMessage, member. rewrite Htype.
  split.
  - unfold Client.recognised.
    repeat match goal with
           | |- context [String.eqb tag ?l] =>
               destruct (String.eqb_spec tag l) as [-> | ?];
               [split; [discriminate
                       | intro H; exfalso; apply H; cbn; tauto] |]
           end.
    split; [| reflexivity].
    intros _ Hin. cbn in Hin. intuition congruence.
  - repeat split; intros ->; reflexivity.
Qed.

Lemma client_dispatch_complete_witness :
  Client.handleWebSocketMessage
    (Text (Some (JObj [ ("type", JStr "pong"); ("timestamp", JNum 1000) ])))
  = Client.HandlePong
      (JObj [ ("type", JStr "pong"); ("timestamp", JNum 1000) ]).
Proof.
  apply (@client_dispatch_complete
           [ ("type", JStr "pong"); ("timestamp", JNum 1000) ] "pong" eq_refl).
  reflexivity.
Defined.

End Dispatch.

Section GaugeExample.

Import JS.

Lemma gauge_rotation_bounds_witness :
  exists r,
    Simple.updateGaugeBasedOnSpeed (Fin 450) = Fin r
    /\ (r <= 315)%Q
    /\ ((0 <= 450)%Q -> (135 <= r)%Q)
    /\ ((300 <= 450)%Q -> r == 315).
Proof. apply (gauge_rotation_bounds 450). Defined.

End GaugeExample.
